(** * Boot-stage script runner: the post-fs-data deadline supervisor

    A shallow embedding of [native/jni/core/scripting.cpp]:
    [exec_common_scripts], [exec_module_scripts], the three supervisor
    macros [PFS_SETUP], [PFS_WAIT], [PFS_DONE] and [operator>] on
    [timespec].

    The code is modelled as it is executed by ONE process.  Every system
    call whose result the code looks at ([xfork], [waitpid(-1)],
    [clock_gettime], [xopen_dir]/[xreaddir], [faccessat], [access]) takes
    its result from a [world]; which side of a fork the process is on is
    decided, as in C, by the value [xfork] hands back.  What the process
    does is recorded as a chronological list of [event]s. *)

From Stdlib Require Import ZArith String Ascii List Bool Lia.
Import ListNotations.
Set Warnings "-notation-for-abbreviation".
Local Open Scope string_scope.
Local Open Scope Z_scope.

(** ** Data *)

(** [struct timespec]. *)
Record timespec : Type := mk_timespec { tv_sec : Z; tv_nsec : Z }.

(** The part of [struct dirent] the code reads. *)
Record dirent : Type := mk_dirent { d_type : Z; d_name : string }.

(** [<dirent.h>] and [<signal.h>]. *)
Definition DT_DIR : Z := 4.
Definition DT_REG : Z := 8.
Definition DT_LNK : Z := 10.
Definition SIGKILL : Z := 9.

(** The fork primitives an [exec_t] can name. *)
Inductive fork_fn : Type := xfork | fork_dont_care | fork_no_orphan.

(** The pre-exec hooks of this file. *)
Inductive pre_exec_fn : Type := set_script_env.

(** [exec_t], restricted to the two fields this file initialises. *)
Record exec_t : Type := mk_exec { pre_exec : option pre_exec_fn; fork : fork_fn }.

(** Constants of [magisk.hpp], which is not part of the sources at hand. *)
Record build_config : Type := mk_config {
  SECURE_DIR : string;
  MODULEROOT : string;
  BBPATH : string;
  POST_FS_DATA_SCRIPT_MAX_TIME : Z
}.

(** What a process does, in the order it does it. *)
Inductive event : Type :=
| Log_info (line : string)
| Log_warn (line : string)
| Clock_gettime (now : timespec)
| Clock_nanosleep (until : timespec)
| Xfork (ret : Z)
| Waitpid (pid : Z)
| Waitpid_any (ret : Z)
| Kill (pid sig : Z)
| Exec_command (exec : exec_t) (argv : list string).

(** The environment of the process.  [xfork_ret k] is what the [k]-th call
    of [xfork] made by this process returns, and likewise for
    [waitpid(-1, nullptr, 0)] and [clock_gettime(CLOCK_MONOTONIC, _)].
    [dir_entries path] is [None] when [xopen_dir path] yields no directory,
    otherwise the entries [xreaddir] hands out, in its order. *)
Record world : Type := mk_world {
  MAGISKTMP : string;
  dir_entries : string -> option (list dirent);
  may_execute : string -> string -> bool;
  file_exists : string -> bool;
  xfork_ret : nat -> Z;
  waitpid_ret : nat -> Z;
  monotonic : nat -> timespec
}.

(** The state of the process: the file-scope [static timespec pfs_timeout]
    and how many answers of each kind it has consumed. *)
Record proc : Type := mk_proc {
  pfs_timeout : timespec;
  n_fork : nat;
  n_wait : nat;
  n_clock : nat
}.

(** Static storage is zero-initialised. *)
Definition proc_start : proc := mk_proc (mk_timespec 0 0) 0 0 0.

(** ** The monad of one process

    A computation either goes on with a value, executes [return] of the
    enclosing function, or calls [exit]. *)
Inductive flow (A : Type) : Type :=
| Next (a : A)
| Return_
| Exit (status : Z).
Arguments Next {A} a.
Arguments Return_ {A}.
Arguments Exit {A} status.

Definition M (A : Type) : Type := proc -> flow A * proc * list event.

Definition ret {A} (a : A) : M A := fun s => (Next a, s, []).

Definition bind {A B} (m : M A) (k : A -> M B) : M B :=
  fun s =>
    match m s with
    | (Next a, s1, t1) =>
        match k a s1 with (r, s2, t2) => (r, s2, (t1 ++ t2)%list) end
    | (Return_, s1, t1) => (Return_, s1, t1)
    | (Exit c, s1, t1) => (Exit c, s1, t1)
    end.

Declare Scope proc_scope.
Delimit Scope proc_scope with proc.
Notation "x <- m ;; k" := (bind m (fun x => k))
  (at level 61, m at next level, right associativity) : proc_scope.
Notation "m ;; k" := (bind m (fun _ => k))
  (at level 61, right associativity) : proc_scope.
Local Open Scope proc_scope.

Definition emit (e : event) : M unit := fun s => (Next tt, s, [e]).
Definition return_ {A} : M A := fun s => (Return_, s, []).
Definition exit {A} (status : Z) : M A := fun s => (Exit status, s, []).

Definition LOGI (line : string) : M unit := emit (Log_info line).
Definition LOGW (line : string) : M unit := emit (Log_warn line).

Definition xfork_call (w : world) : M Z :=
  fun s =>
    let r := xfork_ret w (n_fork s) in
    (Next r, mk_proc (pfs_timeout s) (S (n_fork s)) (n_wait s) (n_clock s), [Xfork r]).

Definition waitpid_any (w : world) : M Z :=
  fun s =>
    let r := waitpid_ret w (n_wait s) in
    (Next r, mk_proc (pfs_timeout s) (n_fork s) (S (n_wait s)) (n_clock s), [Waitpid_any r]).

Definition waitpid (pid : Z) : M unit := emit (Waitpid pid).

Definition clock_gettime (w : world) : M timespec :=
  fun s =>
    let now := monotonic w (n_clock s) in
    (Next now, mk_proc (pfs_timeout s) (n_fork s) (n_wait s) (S (n_clock s)), [Clock_gettime now]).

Definition clock_nanosleep (until : timespec) : M unit := emit (Clock_nanosleep until).
Definition kill (pid sig : Z) : M unit := emit (Kill pid sig).

Definition get_pfs_timeout : M timespec := fun s => (Next (pfs_timeout s), s, []).
Definition set_pfs_timeout (t : timespec) : M unit :=
  fun s => (Next tt, mk_proc t (n_fork s) (n_wait s) (n_clock s), []).

(** [exec_command] lives in the utility library.  The calling process only
    hands it the [exec_t] and the argument vector and drops what it
    returns; the forked child never comes back into this file. *)
Definition exec_command (exec : exec_t) (argv : list string) : M unit :=
  emit (Exec_command exec argv).

(** [access(path, F_OK)] and [faccessat(dfd, name, X_OK, 0)]: 0 or -1. *)
Definition access (w : world) (path : string) : Z :=
  if file_exists w path then 0 else -1.
Definition faccessat (w : world) (dir name : string) : Z :=
  if may_execute w dir name then 0 else -1.

(** [for (x : l) body], with the loop-carried local passed along. *)
Fixpoint for_each {A S : Type} (body : A -> S -> M S) (l : list A) (s : S) : M S :=
  match l with
  | [] => ret s
  | x :: l' => s' <- body x s ;; for_each body l' s'
  end.

Definition nl : string := String (ascii_of_nat 10) EmptyString.

(** ** The source *)

(** [static bool operator>(const timespec &a, const timespec &b)] *)
Definition timespec_gt (a b : timespec) : bool :=
  if negb (tv_sec a =? tv_sec b) then tv_sec a >? tv_sec b
  else tv_nsec a >? tv_nsec b.

(** [static const char *bbpath()] *)
Definition bbpath (cfg : build_config) (w : world) : string :=
  MAGISKTMP w ++ "/" ++ BBPATH cfg ++ "/busybox".

(** [#define BBEXEC_CMD bbpath(), "sh"] *)
Definition BBEXEC_CMD (cfg : build_config) (w : world) : list string :=
  [bbpath cfg w; "sh"].

(** [stage == "post-fs-data"sv] *)
Definition is_pfs (stage : string) : bool := String.eqb stage "post-fs-data".

(** [PFS_SETUP()]: the value is the new [timer_pid]. *)
Definition PFS_SETUP (w : world) (pfs : bool) (timer_pid : Z) : M Z :=
  if pfs then
    pid <- xfork_call w ;;
    if negb (pid =? 0) then
      if pid <? 0 then return_
      else waitpid pid ;; return_
    else
      timer_pid <- xfork_call w ;;
      if timer_pid =? 0 then
        until <- get_pfs_timeout ;;
        clock_nanosleep until ;;
        exit 0
      else ret timer_pid
  else ret timer_pid.

(** [PFS_WAIT()]: the value is the new [timer_pid].  In both loops the
    macro is the last statement of the body, so its [continue] is the end
    of the iteration. *)
Definition PFS_WAIT (w : world) (pfs : bool) (timer_pid : Z) : M Z :=
  if pfs then
    if timer_pid <? 0 then ret timer_pid
    else
      pid <- waitpid_any w ;;
      if pid =? timer_pid then
        LOGW ("* post-fs-data scripts blocking phase timeout" ++ nl) ;;
        ret (-1)
      else ret timer_pid
  else ret timer_pid.

(** [PFS_DONE()] *)
Definition PFS_DONE (pfs : bool) (timer_pid : Z) : M unit :=
  if pfs then
    (if timer_pid >? 0 then kill timer_pid SIGKILL else ret tt) ;;
    exit 0
  else ret tt.

(** The [exec_t] both loops build. *)
Definition script_exec (pfs : bool) : exec_t :=
  mk_exec (Some set_script_env) (if pfs then xfork else fork_dont_care).

(** Body of the [xreaddir] loop of [exec_common_scripts]; [path] is the
    stage directory, to which the loop appends ['/'] and the entry name. *)
Definition common_body (cfg : build_config) (w : world) (stage path : string)
    (pfs : bool) (entry : dirent) (timer_pid : Z) : M Z :=
  if d_type entry =? DT_REG then
    if negb (faccessat w path (d_name entry) =? 0) then ret timer_pid
    else
      LOGI (stage ++ ".d: exec [" ++ d_name entry ++ "]" ++ nl) ;;
      exec_command (script_exec pfs) (BBEXEC_CMD cfg w ++ [(path ++ "/" ++ d_name entry)%string])%list ;;
      PFS_WAIT w pfs timer_pid
  else ret timer_pid.

(** [time_t] of the 64-bit build: a signed 64-bit integer. *)
Definition time_t_min : Z := -9223372036854775808.
Definition time_t_max : Z := 9223372036854775807.

(** The value a [time_t] holds after an addition whose exact result is
    [z]: the compiled [+=] wraps around. *)
Definition time_t_wrap (z : Z) : Z :=
  (z - time_t_min) mod 18446744073709551616 + time_t_min.

(** [sprintf(path, SECURE_DIR "/%s.d", stage)] *)
Definition stage_dir (cfg : build_config) (stage : string) : string :=
  SECURE_DIR cfg ++ "/" ++ stage ++ ".d".

(** [void exec_common_scripts(const char *stage)] *)
Definition exec_common_scripts (cfg : build_config) (w : world) (stage : string) : M unit :=
  LOGI ("* Running " ++ stage ++ ".d scripts" ++ nl) ;;
  let path := stage_dir cfg stage in
  match dir_entries w path with
  | None => return_
  | Some entries =>
      let pfs := is_pfs stage in
      let timer_pid := -1 in
      (if pfs then
         now <- clock_gettime w ;;
         set_pfs_timeout
           (mk_timespec (time_t_wrap (tv_sec now + POST_FS_DATA_SCRIPT_MAX_TIME cfg))
                        (tv_nsec now))
       else ret tt) ;;
      timer_pid <- PFS_SETUP w pfs timer_pid ;;
      timer_pid <- for_each (common_body cfg w stage path pfs) entries timer_pid ;;
      PFS_DONE pfs timer_pid
  end.

(** [MODULEROOT "/%s/%s.sh"] *)
Definition module_script (cfg : build_config) (stage module : string) : string :=
  MODULEROOT cfg ++ "/" ++ module ++ "/" ++ stage ++ ".sh".

(** Body of the module loop of [exec_module_scripts]. *)
Definition module_body (cfg : build_config) (w : world) (stage : string)
    (pfs : bool) (module : string) (timer_pid : Z) : M Z :=
  let path := module_script cfg stage module in
  if access w path =? -1 then ret timer_pid
  else
    LOGI (module ++ ": exec [" ++ stage ++ ".sh]" ++ nl) ;;
    exec_command (script_exec pfs) (BBEXEC_CMD cfg w ++ [path])%list ;;
    PFS_WAIT w pfs timer_pid.

(** [void exec_module_scripts(const char *stage, const vector<string_view> &modules)] *)
Definition exec_module_scripts (cfg : build_config) (w : world) (stage : string)
    (modules : list string) : M unit :=
  LOGI ("* Running module " ++ stage ++ " scripts" ++ nl) ;;
  match modules with
  | [] => return_
  | _ :: _ =>
      pfs <- (if is_pfs stage then
                now <- clock_gettime w ;;
                deadline <- get_pfs_timeout ;;
                if timespec_gt now deadline then ret false else ret true
              else ret false) ;;
      let timer_pid := -1 in
      timer_pid <- PFS_SETUP w pfs timer_pid ;;
      timer_pid <- for_each (module_body cfg w stage pfs) modules timer_pid ;;
      PFS_DONE pfs timer_pid
  end.

(** ** Reading a trace *)

Definition launch_of (e : event) : list (exec_t * list string) :=
  match e with Exec_command exec argv => [(exec, argv)] | _ => [] end.

(** The [exec_command] calls of a trace, in order. *)
Definition launches (tr : list event) : list (exec_t * list string) :=
  flat_map launch_of tr.

Definition is_wait_any (e : event) : bool :=
  match e with Waitpid_any _ => true | _ => false end.

Definition is_fork (e : event) : bool :=
  match e with Xfork _ => true | _ => false end.

Definition is_sleep (e : event) : bool :=
  match e with Clock_nanosleep _ => true | _ => false end.

(** The blocking [waitpid(-1, ...)] calls of a trace. *)
Definition wait_any_calls (tr : list event) : list event := filter is_wait_any tr.

(** The [xfork] calls this file makes itself (not those inside
    [exec_command]). *)
Definition fork_calls (tr : list event) : list event := filter is_fork tr.

Definition sleep_calls (tr : list event) : list event := filter is_sleep tr.

Definition is_reap (timer : Z) (e : event) : bool :=
  match e with Waitpid_any pid => pid =? timer | _ => false end.

(** What follows the first [waitpid(-1)] that hands back [timer]. *)
Fixpoint after_reap (timer : Z) (tr : list event) : list event :=
  match tr with
  | [] => []
  | e :: tr' => if is_reap timer e then tr' else after_reap timer tr'
  end.

(** A function called as a statement: [return] and falling off the end
    both give control back to the caller, [exit] ends the process. *)
Inductive outcome : Type := Returned | Exited (status : Z).

Definition call (f : M unit) (s : proc) : outcome * proc * list event :=
  match f s with
  | (Next _, s', tr) => (Returned, s', tr)
  | (Return_, s', tr) => (Returned, s', tr)
  | (Exit c, s', tr) => (Exited c, s', tr)
  end.

(** ** Vocabulary of the specification *)

(** A regular file the process may execute. *)
Definition runnable (w : world) (dir : string) (e : dirent) : bool :=
  (d_type e =? DT_REG) && may_execute w dir (d_name e).

Definition entry_path (dir : string) (e : dirent) : string :=
  dir ++ "/" ++ d_name e.

(** The scripts of a stage directory that are to be launched, in listing
    order. *)
Definition stage_scripts (w : world) (dir : string) (es : list dirent) : list string :=
  map (entry_path dir) (filter (runnable w dir) es).

(** The module scripts that are to be launched, in the caller's order. *)
Definition present_scripts (cfg : build_config) (w : world) (stage : string)
    (modules : list string) : list string :=
  filter (file_exists w) (map (module_script cfg stage) modules).

(** The launch of one script under a policy. *)
Definition script_launch (cfg : build_config) (w : world) (f : fork_fn) (path : string)
    : exec_t * list string :=
  (mk_exec (Some set_script_env) f, [bbpath cfg w; "sh"; path]).

(** "Every script launched after the timer was reaped is launched through
    [f]". *)
Definition launches_after_reap_use (f : fork_fn) (timer : Z) (tr : list event) : Prop :=
  forall pre post exec argv,
    tr = (pre ++ Waitpid_any timer :: post)%list ->
    In (Exec_command exec argv) post ->
    fork exec = f.

(** "Nothing blocks after the timer was reaped". *)
Definition no_wait_after_reap (timer : Z) (tr : list event) : Prop :=
  forall pre post,
    tr = (pre ++ Waitpid_any timer :: post)%list ->
    wait_any_calls post = [].

(** A reading of [CLOCK_MONOTONIC] taken after boot: later than the zero
    of the clock. *)
Definition after_boot (t : timespec) : Prop :=
  0 < tv_sec t \/ (tv_sec t = 0 /\ 0 < tv_nsec t).

(** The two phases of a stage. *)
Inductive phase : Type :=
| Directory_phase
| Module_phase (modules : list string).

Definition run_phase (cfg : build_config) (w : world) (stage : string) (ph : phase)
    : M unit :=
  match ph with
  | Directory_phase => exec_common_scripts cfg w stage
  | Module_phase modules => exec_module_scripts cfg w stage modules
  end.

(** The phase gets as far as [PFS_SETUP] with [pfs] set: the stage is the
    timed one and the function has not given up before (no directory, no
    module) nor found the deadline behind it. *)
Definition supervised (cfg : build_config) (w : world) (stage : string) (ph : phase)
    (s : proc) : bool :=
  is_pfs stage &&
  match ph with
  | Directory_phase =>
      match dir_entries w (stage_dir cfg stage) with Some _ => true | None => false end
  | Module_phase modules =>
      match modules with
      | [] => false
      | _ :: _ => negb (timespec_gt (monotonic w (n_clock s)) (pfs_timeout s))
      end
  end.

(** The scripts a phase is to launch. *)
Definition phase_scripts (cfg : build_config) (w : world) (stage : string) (ph : phase)
    : list string :=
  match ph with
  | Directory_phase =>
      match dir_entries w (stage_dir cfg stage) with
      | Some es => stage_scripts w (stage_dir cfg stage) es
      | None => []
      end
  | Module_phase modules => present_scripts cfg w stage modules
  end.


Definition common_banner (stage : string) : event :=
  Log_info ("* Running " ++ stage ++ ".d scripts" ++ nl).

(** ** Sample worlds *)

Definition example_cfg : build_config :=
  mk_config "/data/adb" ".magisk/modules" ".magisk/busybox" 35.

Definition stage_listing : list dirent :=
  [ mk_dirent DT_REG "10-fast"; mk_dirent DT_DIR "sub"; mk_dirent DT_REG "notes";
    mk_dirent DT_REG "20-slow"; mk_dirent DT_REG "30-late"; mk_dirent DT_LNK "latest" ].

(** The subtree process of a post-fs-data run: both forks of [PFS_SETUP]
    succeed (the timer is pid 77), the first [waitpid(-1)] reaps a script
    (pid 100) and the second one the timer. *)
Definition subtree_world : world :=
  mk_world "/sbin"
    (fun p => if String.eqb p "/data/adb/post-fs-data.d" then Some stage_listing else None)
    (fun _ n => negb (String.eqb n "notes"))
    (fun p => String.eqb p ".magisk/modules/alpha/post-fs-data.sh")
    (fun k => match k with O => 0 | _ => 77 end)
    (fun k => match k with O => 100 | _ => 77 end)
    (fun _ => mk_timespec 12 500).

(** The same subtree, with scripts that all finish before the deadline. *)
Definition calm_world : world :=
  mk_world "/sbin"
    (fun p => if String.eqb p "/data/adb/post-fs-data.d" then Some stage_listing else None)
    (fun _ n => negb (String.eqb n "notes"))
    (fun p => String.eqb p ".magisk/modules/alpha/post-fs-data.sh")
    (fun k => match k with O => 0 | _ => 77 end)
    (fun k => 100 + Z.of_nat k)
    (fun _ => mk_timespec 12 500).

(** The subtree when the timer cannot be forked. *)
Definition no_timer_world : world :=
  mk_world "/sbin"
    (fun p => if String.eqb p "/data/adb/post-fs-data.d" then Some stage_listing else None)
    (fun _ n => negb (String.eqb n "notes"))
    (fun p => String.eqb p ".magisk/modules/alpha/post-fs-data.sh")
    (fun k => match k with O => 0 | _ => -1 end)
    (fun k => 100 + Z.of_nat k)
    (fun _ => mk_timespec 12 500).

(** The caller when the subtree cannot be forked. *)
Definition no_fork_world : world :=
  mk_world "/sbin"
    (fun p => if String.eqb p "/data/adb/post-fs-data.d" then Some stage_listing else None)
    (fun _ n => negb (String.eqb n "notes"))
    (fun p => String.eqb p ".magisk/modules/alpha/post-fs-data.sh")
    (fun _ => -1)
    (fun k => 100 + Z.of_nat k)
    (fun _ => mk_timespec 12 500).

(** A device without any stage directory. *)
Definition bare_world : world :=
  mk_world "/sbin"
    (fun _ => None)
    (fun _ _ => false)
    (fun p => String.eqb p ".magisk/modules/alpha/post-fs-data.sh")
    (fun k => match k with O => 0 | _ => 77 end)
    (fun k => 100 + Z.of_nat k)
    (fun _ => mk_timespec 12 500).

(** ** The two loops have one shape

    Either an entry is passed over, or it is logged, launched and
    followed by [PFS_WAIT]. *)
Definition guarded_launch {A : Type} (w : world) (pfs : bool) (sel : A -> bool)
    (line : A -> string) (argv : A -> list string) (x : A) (timer_pid : Z) : M Z :=
  if sel x then
    LOGI (line x) ;; exec_command (script_exec pfs) (argv x) ;; PFS_WAIT w pfs timer_pid
  else ret timer_pid.

(** What a launch leaves in the trace when nothing is waited for. *)
Definition launch_events {A : Type} (pfs : bool) (sel : A -> bool)
    (line : A -> string) (argv : A -> list string) (x : A) : list event :=
  if sel x then [Log_info (line x); Exec_command (script_exec pfs) (argv x)] else [].

Definition common_line (stage : string) (e : dirent) : string :=
  stage ++ ".d: exec [" ++ d_name e ++ "]" ++ nl.

Definition common_argv (cfg : build_config) (w : world) (dir : string) (e : dirent)
    : list string :=
  [bbpath cfg w; "sh"; entry_path dir e].

Definition module_line (stage module : string) : string :=
  module ++ ": exec [" ++ stage ++ ".sh]" ++ nl.

Definition module_argv (cfg : build_config) (w : world) (stage module : string)
    : list string :=
  [bbpath cfg w; "sh"; module_script cfg stage module].

Definition module_present (cfg : build_config) (w : world) (stage module : string) : bool :=
  file_exists w (module_script cfg stage module).

(** ** The stage as a whole *)

(** Two processes of one stage invocation: they see the same device and,
    having a common ancestor up to the first fork of the stage, the same
    clock reading before it. *)
Definition same_stage (a b : world) (s : proc) : Prop :=
  MAGISKTMP a = MAGISKTMP b /\
  (forall p, dir_entries a p = dir_entries b p) /\
  (forall d n, may_execute a d n = may_execute b d n) /\
  (forall p, file_exists a p = file_exists b p) /\
  monotonic a (n_clock s) = monotonic b (n_clock s).

(** "A timer fork that fails leaves the whole stage without a blocking
    wait".  [dir_view] is the subtree process of the directory phase, in
    which the timer fork fails; [mod_view] is a process of the same stage
    that is back from the directory phase and goes through the module
    phase. *)
Definition stage_expired_after_timer_failure (cfg : build_config)
    (dir_view mod_view : world) (modules : list string) (s : proc) : Prop :=
  supervised cfg dir_view "post-fs-data" Directory_phase s = true ->
  xfork_ret dir_view (n_fork s) = 0 ->
  xfork_ret dir_view (S (n_fork s)) < 0 ->
  same_stage dir_view mod_view s ->
  wait_any_calls (snd (exec_common_scripts cfg dir_view "post-fs-data" s)) = [] /\
  forall s1 tr1,
    call (exec_common_scripts cfg mod_view "post-fs-data") s = (Returned, s1, tr1) ->
    wait_any_calls (snd (exec_module_scripts cfg mod_view "post-fs-data" modules s1)) = [].

(** The subtree process of the module phase of a post-fs-data run: the
    fork of the directory phase gave its ancestor, the daemon, the pid
    4242; the fork of the module phase gives it 0 and its timer fork 77;
    the clock reads 12.0000005 s, then 40.0000005 s. *)
Definition module_subtree_world : world :=
  mk_world "/sbin"
    (fun p => if String.eqb p "/data/adb/post-fs-data.d" then Some stage_listing else None)
    (fun _ n => negb (String.eqb n "notes"))
    (fun p => String.eqb p ".magisk/modules/alpha/post-fs-data.sh")
    (fun k => match k with O => 4242 | S O => 0 | _ => 77 end)
    (fun k => 100 + Z.of_nat k)
    (fun k => mk_timespec (12 + 28 * Z.of_nat k) 500).

(** ** More ways to read a trace *)

Definition is_kill (e : event) : bool :=
  match e with Kill _ _ => true | _ => false end.

Definition is_warn (e : event) : bool :=
  match e with Log_warn _ => true | _ => false end.

Definition is_clock (e : event) : bool :=
  match e with Clock_gettime _ => true | _ => false end.

Definition kill_calls (tr : list event) : list event := filter is_kill tr.
Definition warn_calls (tr : list event) : list event := filter is_warn tr.
Definition clock_calls (tr : list event) : list event := filter is_clock tr.

(** The one warning of this file. *)
Definition timeout_warning : event :=
  Log_warn ("* post-fs-data scripts blocking phase timeout" ++ nl).

(** The deadline a supervised phase works with: the directory phase
    computes it from its clock reading, the module phase takes the stored
    one. *)
Definition phase_deadline (cfg : build_config) (w : world) (ph : phase) (s : proc)
    : timespec :=
  match ph with
  | Directory_phase =>
      mk_timespec
        (time_t_wrap (tv_sec (monotonic w (n_clock s)) + POST_FS_DATA_SCRIPT_MAX_TIME cfg))
        (tv_nsec (monotonic w (n_clock s)))
  | Module_phase _ => pfs_timeout s
  end.

(** The books of one run of a loop of the timed stage, from [timer_pid = t]
    in state [s] to [timer_pid = t'] in state [s'] with trace [tr]. *)
Definition loop_account (t : Z) (s : proc) (t' : Z) (s' : proc) (tr : list event) : Prop :=
  (fork_calls tr = [] /\ sleep_calls tr = [] /\ kill_calls tr = [] /\ clock_calls tr = []) /\
  (pfs_timeout s' = pfs_timeout s /\ n_fork s' = n_fork s /\ n_clock s' = n_clock s /\
   n_wait s' = (n_wait s + List.length (wait_any_calls tr))%nat) /\
  (List.length (wait_any_calls tr) <= List.length (launches tr))%nat /\
  (t < 0 -> t' = t /\ wait_any_calls tr = [] /\ warn_calls tr = []) /\
  (0 <= t ->
   (t' = t /\ ~ In (Waitpid_any t) tr /\ warn_calls tr = [] /\
    List.length (wait_any_calls tr) = List.length (launches tr)) \/
   (t' = -1 /\ In (Waitpid_any t) tr /\ warn_calls tr = [timeout_warning])).

(** ** The environment hook *)

(** The process environment, read through [getenv]. *)
Definition environ : Type := string -> option string.

Definition getenv (env : environ) (name : string) : option string := env name.

(** [setenv(name, value, 1)] *)
Definition setenv (env : environ) (name value : string) : environ :=
  fun n => if String.eqb n name then Some value else env n.

(** [static void set_script_env()].  [zygisk_enabled] is a global of the
    daemon.  The result is [None] where C leaves the behaviour undefined:
    [PATH] unset (a null pointer for [%s]) or a result that does not fit
    [char new_path[4096]] with its terminator. *)
Definition set_script_env_effect (w : world) (zygisk_enabled : bool) (env : environ)
    : option environ :=
  let env := setenv env "ASH_STANDALONE" "1" in
  match getenv env "PATH" with
  | None => None
  | Some path =>
      let new_path := path ++ ":" ++ MAGISKTMP w in
      if 4096 <=? Z.of_nat (String.length new_path) then None
      else
        let env := setenv env "PATH" new_path in
        Some (if zygisk_enabled then setenv env "ZYGISK_ENABLED" "1" else env)
  end.

(** What a [pre_exec] hook does in the child before [execve]. *)
Definition pre_exec_effect (h : pre_exec_fn) (w : world) (zygisk_enabled : bool)
    : environ -> option environ :=
  match h with set_script_env => set_script_env_effect w zygisk_enabled end.

(** ** The cache of [bbpath()] *)

(** One call of [bbpath()] with its [static string path] passed along: the
    value handed back and the new content of the static. *)
Definition bbpath_static (cfg : build_config) (w : world) (path : string)
    : string * string :=
  let path := if String.eqb path "" then bbpath cfg w else path in
  (path, path).

(** Successive calls, each in the world of its time. *)
Fixpoint bbpath_calls (cfg : build_config) (ws : list world) (path : string)
    : list string :=
  match ws with
  | [] => []
  | w :: ws' =>
      match bbpath_static cfg w path with
      | (r, path') => r :: bbpath_calls cfg ws' path'
      end
  end.

(** ** One-off scripts and the install flows *)

(** [sprintf] and [vfprintf] for the formats of this file, which use no
    directive but [%s]; each [%s] takes the next argument. *)
Fixpoint format_s (fmt : string) (args : list string) : string :=
  match fmt with
  | EmptyString => EmptyString
  | String c rest =>
      match c, rest with
      | "%"%char, String "s"%char rest' =>
          match args with
          | a :: args' => a ++ format_s rest' args'
          | [] => format_s rest' []
          end
      | _, _ => String c (format_s rest args)
      end
  end.

Inductive stream : Type := stdout | stderr.

Inductive access_mode : Type := F_OK | X_OK.

Definition STDERR_FILENO : Z := 2.

(** What the one-off functions do, in order. *)
Inductive step : Type :=
| Setfilecon (path con : string)
| Exec_command_sync (exec : exec_t) (argv : list string)
| Fprintf (fp : stream) (text : string)
| Setenv (name value : string)
| Xopen (path : string) (fd : Z)
| Xdup2 (oldfd newfd : Z)
| Close (fd : Z)
| Execve (path : string) (argv : list string) (env : environ)
| Exit_status (status : Z).

(** [void exec_script(const char *script)] *)
Definition exec_script (cfg : build_config) (w : world) (script : string) : list step :=
  [Exec_command_sync (mk_exec (Some set_script_env) fork_no_orphan)
     (BBEXEC_CMD cfg w ++ [script])%list].

Definition dq : string := String (ascii_of_nat 34) EmptyString.

(** [constexpr char install_script[]] *)
Definition install_script : string :=
  nl ++ "APK=%s" ++ nl ++
  "log -t Magisk " ++ dq ++ "apk_install: $APK" ++ dq ++ nl ++
  "log -t Magisk " ++ dq ++ "apk_install: $(pm install -r $APK 2>&1)" ++ dq ++ nl ++
  "rm -f $APK" ++ nl.

(** What [install_script] reads before and after its [%s]. *)
Definition install_script_head : string := nl ++ "APK=".

Definition install_script_tail : string :=
  nl ++
  "log -t Magisk " ++ dq ++ "apk_install: $APK" ++ dq ++ nl ++
  "log -t Magisk " ++ dq ++ "apk_install: $(pm install -r $APK 2>&1)" ++ dq ++ nl ++
  "rm -f $APK" ++ nl.

(** [void install_apk(const char *apk)].  [sepol_file_type] stands for the
    macro [SEPOL_FILE_TYPE].  [None] when the formatted command and its
    terminator do not fit [char cmds[sizeof(install_script) + 4096]]. *)
Definition install_apk (sepol_file_type apk : string) : option (list step) :=
  let cmds := format_s install_script [apk] in
  if Z.of_nat (String.length install_script) + 1 + 4096 <=? Z.of_nat (String.length cmds)
  then None
  else
    Some [Setfilecon apk ("u:object_r:" ++ sepol_file_type ++ ":s0");
          Exec_command_sync (mk_exec None fork_no_orphan) ["/system/bin/sh"; "-c"; cmds]].

(** [static void abort(FILE *fp, const char *fmt, ...)] *)
Definition abort (fp : stream) (fmt : string) (args : list string) : list step :=
  [Fprintf fp (format_s fmt args); Fprintf fp (nl ++ nl); Exit_status 1].

(** [constexpr char install_module_script[]] *)
Definition install_module_script : string :=
  nl ++ "exec $(magisk --path)/.magisk/busybox/busybox sh -c '" ++ nl ++
  ". /data/adb/magisk/util_functions.sh" ++ nl ++
  "install_module" ++ nl ++
  "exit 0'" ++ nl.

(** What [install_module] asks of the system. *)
Record host : Type := mk_host {
  getuid : Z;
  accessible : string -> access_mode -> bool;
  realpath : string -> option string;
  devnull_fd : Z;
  execve_fails : bool
}.

(** [access(path, mode)] on a [host]: 0 or -1. *)
Definition access_at (h : host) (path : string) (mode : access_mode) : Z :=
  if accessible h path mode then 0 else -1.

(** [void install_module(const char *file)].  [databin] stands for the
    macro [DATABIN]; [env] is the environment on entry.  [None] when
    [realpath] yields a null pointer, which the code hands to [setenv]. *)
Definition install_module (databin : string) (h : host) (env : environ) (file : string)
    : option (list step) :=
  if negb (getuid h =? 0) then
    Some (abort stderr "Run this command with root" [])
  else if negb (access_at h databin F_OK =? 0) ||
          negb (access_at h (databin ++ "/busybox") X_OK =? 0) ||
          negb (access_at h (databin ++ "/util_functions.sh") F_OK =? 0) then
    Some (abort stderr "Incomplete Magisk install" [])
  else if negb (access_at h file F_OK =? 0) then
    Some (abort stderr "'%s' does not exist" [file])
  else
    match realpath h file with
    | None => None
    | Some zip =>
        let env := setenv env "OUTFD" "1" in
        let env := setenv env "ZIPFILE" zip in
        let env := setenv env "ASH_STANDALONE" "1" in
        let fd := devnull_fd h in
        Some ([Setenv "OUTFD" "1"; Setenv "ZIPFILE" zip; Setenv "ASH_STANDALONE" "1";
               Xopen "/dev/null" fd; Xdup2 fd STDERR_FILENO; Close fd;
               Execve "/system/bin/sh" ["/system/bin/sh"; "-c"; install_module_script] env] ++
              (if execve_fails h then abort stdout "Failed to execute BusyBox shell" []
               else []))%list
    end.

(** A device with a [service.d] directory and a service script of module
    alpha, seen by the daemon itself. *)
Definition service_world : world :=
  mk_world "/sbin"
    (fun p => if String.eqb p "/data/adb/service.d" then Some stage_listing else None)
    (fun _ n => negb (String.eqb n "notes"))
    (fun p => String.eqb p ".magisk/modules/alpha/service.sh")
    (fun _ => 4242)
    (fun k => 100 + Z.of_nat k)
    (fun _ => mk_timespec 12 500).

(** The daemon in a post-fs-data run: its fork gives it the subtree (pid
    4242); its clock reads 12.0000005 s, then 40.0000005 s. *)
Definition caller_world : world :=
  mk_world "/sbin"
    (fun p => if String.eqb p "/data/adb/post-fs-data.d" then Some stage_listing else None)
    (fun _ n => negb (String.eqb n "notes"))
    (fun p => String.eqb p ".magisk/modules/alpha/post-fs-data.sh")
    (fun _ => 4242)
    (fun k => 100 + Z.of_nat k)
    (fun k => mk_timespec (12 + 28 * Z.of_nat k) 500).

(** The timer process: both forks of [PFS_SETUP] answer 0. *)
Definition timer_world : world :=
  mk_world "/sbin"
    (fun p => if String.eqb p "/data/adb/post-fs-data.d" then Some stage_listing else None)
    (fun _ n => negb (String.eqb n "notes"))
    (fun p => String.eqb p ".magisk/modules/alpha/post-fs-data.sh")
    (fun _ => 0)
    (fun k => 100 + Z.of_nat k)
    (fun _ => mk_timespec 12 500).

(** Sample inputs for the install flow. *)
Definition guest_host : host :=
  mk_host 2000 (fun _ _ => true) (fun p => Some p) 3 false.


Definition ready_host : host :=
  mk_host 0 (fun _ _ => true) (fun p => Some ("/sdcard/" ++ p)) 3 false.

Definition shell_env : environ :=
  fun n => if String.eqb n "PATH" then Some "/system/bin" else None.

Local Open Scope list_scope.

(** ** Lemmas on the loops *)

Lemma common_body_shape cfg w stage dir pfs e t :
  common_body cfg w stage dir pfs e t =
  guarded_launch w pfs (runnable w dir) (common_line stage) (common_argv cfg w dir) e t.
Proof.
  unfold common_body, guarded_launch, runnable, faccessat.
  destruct (d_type e =? DT_REG); [|reflexivity].
  destruct (may_execute w dir (d_name e)); reflexivity.
Qed.

Lemma module_body_shape cfg w stage pfs m t :
  module_body cfg w stage pfs m t =
  guarded_launch w pfs (module_present cfg w stage) (module_line stage)
    (module_argv cfg w stage) m t.
Proof.
  unfold module_body, guarded_launch, module_present, access.
  destruct (file_exists w (module_script cfg stage m)); reflexivity.
Qed.

Lemma for_each_ext {A S : Type} (b1 b2 : A -> S -> M S) :
  (forall x t, b1 x t = b2 x t) ->
  forall l t s, for_each b1 l t s = for_each b2 l t s.
Proof.
  intros Hb l; induction l as [|x l IH]; intros t s; [reflexivity|].
  cbn [for_each]. unfold bind. rewrite Hb.
  destruct (b2 x t s) as [[[t1| |c] s1] tr1]; [rewrite IH|..]; reflexivity.
Qed.


(** ** Lemmas on [operator>] *)

(** The comparison is the lexicographic one on seconds, then nanoseconds. *)
Lemma timespec_gt_lex a b :
  timespec_gt a b = true <->
  tv_sec b < tv_sec a \/ (tv_sec a = tv_sec b /\ tv_nsec b < tv_nsec a).
Proof.
  unfold timespec_gt. destruct (Z.eqb_spec (tv_sec a) (tv_sec b)) as [E|N]; cbn [negb];
    rewrite Z.gtb_ltb, Z.ltb_lt; lia.
Qed.

(** On normalised values it is the order of the instants they denote. *)
Lemma timespec_gt_instant a b :
  0 <= tv_nsec a < 1000000000 -> 0 <= tv_nsec b < 1000000000 ->
  timespec_gt a b = true <->
  tv_sec b * 1000000000 + tv_nsec b < tv_sec a * 1000000000 + tv_nsec a.
Proof. intros Ha Hb. rewrite timespec_gt_lex. lia. Qed.

(** Equal instants are not "greater": a module phase that reads exactly
    the deadline is still supervised. *)
Lemma timespec_gt_irrefl a : timespec_gt a a = false.
Proof.
  unfold timespec_gt. rewrite Z.eqb_refl. cbn [negb]. rewrite Z.gtb_ltb. apply Z.ltb_irrefl.
Qed.

(** ** Lemmas on traces *)

Lemma wait_any_calls_app a b :
  wait_any_calls (a ++ b) = wait_any_calls a ++ wait_any_calls b.
Proof. apply filter_app. Qed.

Lemma wait_any_calls_nil_app a b :
  wait_any_calls a = [] -> wait_any_calls b = [] -> wait_any_calls (a ++ b) = [].
Proof. intros Ha Hb. now rewrite wait_any_calls_app, Ha, Hb. Qed.

Lemma after_reap_quiet timer tr :
  wait_any_calls tr = [] -> wait_any_calls (after_reap timer tr) = [].
Proof.
  induction tr as [|e tr IH]; [reflexivity|].
  unfold wait_any_calls in *. cbn [filter after_reap].
  destruct e; cbn; try exact IH; discriminate.
Qed.

Lemma after_reap_app timer a b :
  wait_any_calls (after_reap timer a) = [] -> wait_any_calls b = [] ->
  wait_any_calls (after_reap timer (a ++ b)) = [].
Proof.
  intros Ha Hb. induction a as [|e a IH]; cbn [app after_reap] in *.
  - now apply after_reap_quiet.
  - destruct (is_reap timer e); [now apply wait_any_calls_nil_app | now apply IH].
Qed.

Lemma after_reap_skip timer a b :
  wait_any_calls a = [] -> after_reap timer (a ++ b) = after_reap timer b.
Proof.
  induction a as [|e a IH]; [reflexivity|].
  unfold wait_any_calls. cbn [filter app after_reap].
  destruct e; cbn; try exact IH; discriminate.
Qed.

Lemma after_reap_split timer pre post :
  exists mid, after_reap timer (pre ++ Waitpid_any timer :: post) = mid ++ post.
Proof.
  induction pre as [|e pre [mid IH]]; cbn [app after_reap is_reap].
  - rewrite Z.eqb_refl. now exists [].
  - destruct (is_reap timer e); [|now exists mid].
    exists (pre ++ [Waitpid_any timer]). now rewrite <- app_assoc.
Qed.

(** Quiet after the first reap means quiet after any. *)
Lemma after_reap_no_wait timer tr :
  wait_any_calls (after_reap timer tr) = [] -> no_wait_after_reap timer tr.
Proof.
  intros H pre post ->. destruct (after_reap_split timer pre post) as [mid E].
  rewrite E, wait_any_calls_app in H. now apply app_eq_nil in H.
Qed.

Lemma launches_app a b : launches (a ++ b) = launches a ++ launches b.
Proof. apply flat_map_app. Qed.

Lemma launches_in exec argv tr :
  In (Exec_command exec argv) tr -> In (exec, argv) (launches tr).
Proof.
  intros H. apply in_flat_map. exists (Exec_command exec argv). split; [exact H|now left].
Qed.

Section Guarded.
Context {A : Type} (w : world) (sel : A -> bool)
        (line : A -> string) (argv : A -> list string).


(** One iteration, every case written out. *)
Lemma guarded_step pfs x t s :
  guarded_launch w pfs sel line argv x t s =
  if sel x then
    if pfs && negb (t <? 0) then
      let r := waitpid_ret w (n_wait s) in
      let s' := mk_proc (pfs_timeout s) (n_fork s) (S (n_wait s)) (n_clock s) in
      if r =? t then
        (Next (-1), s',
         [Log_info (line x); Exec_command (script_exec pfs) (argv x); Waitpid_any r;
          Log_warn ("* post-fs-data scripts blocking phase timeout" ++ nl)%string])
      else
        (Next t, s',
         [Log_info (line x); Exec_command (script_exec pfs) (argv x); Waitpid_any r])
    else (Next t, s, [Log_info (line x); Exec_command (script_exec pfs) (argv x)])
  else (Next t, s, []).
Proof.
  unfold guarded_launch. destruct (sel x); [|reflexivity].
  destruct pfs; [|reflexivity]. cbn [andb].
  unfold PFS_WAIT. destruct (t <? 0); [reflexivity|]. cbn [negb].
  unfold bind, LOGI, LOGW, exec_command, emit, waitpid_any, ret. cbn.
  destruct (waitpid_ret w (n_wait s) =? t); reflexivity.
Qed.

(** Untimed, or expired: the loop launches and never waits. *)
Lemma loop_quiet pfs l t s :
  pfs = false \/ t < 0 ->
  for_each (guarded_launch w pfs sel line argv) l t s = (Next t, s, flat_map (launch_events pfs sel line argv) l).
Proof.
  intros H. induction l as [|x l IH]; [reflexivity|].
  cbn [for_each flat_map]. unfold bind. rewrite guarded_step.
  assert (Hq : pfs && negb (t <? 0) = false).
  { destruct H as [->|H]; [reflexivity|].
    apply Z.ltb_lt in H. rewrite H. now destruct pfs. }
  rewrite Hq. unfold launch_events at 1.
  destruct (sel x); rewrite IH; reflexivity.
Qed.

Ltac loop_step x t s IH :=
  cbn [for_each]; unfold bind; rewrite guarded_step;
  destruct (sel x) eqn:Hsel;
  [ destruct (_ && negb (t <? 0)) eqn:Harmed; cbv zeta;
    [ destruct (waitpid_ret w (n_wait s) =? t) eqn:Hreap | ] | ];
  match goal with
  | |- context [for_each ?b ?l ?t1 ?s1] =>
      let E := fresh "E" in
      destruct (for_each b l t1 s1) as [[?r ?s2] ?tr2] eqn:E
  end.

(** The loop always runs to its end. *)
Lemma loop_next pfs l t s :
  exists t' s' tr, for_each (guarded_launch w pfs sel line argv) l t s = (Next t', s', tr).
Proof.
  revert t s; induction l as [|x l IH]; intros t s; [now eexists _, _, _|].
  loop_step x t s IH;
    match goal with E : for_each _ _ ?t1 ?s1 = _ |- _ =>
      destruct (IH t1 s1) as (t' & s' & tr & H); rewrite H in E;
      inversion E; subst; now eexists _, _, _
    end.
Qed.

(** It launches the selected entries, all of them, in order, under the
    policy [script_exec pfs]. *)
Lemma loop_launches pfs l t s r s' tr :
  for_each (guarded_launch w pfs sel line argv) l t s = (r, s', tr) ->
  launches tr = map (fun x => (script_exec pfs, argv x)) (filter sel l).
Proof.
  revert t s r s' tr; induction l as [|x l IH]; intros t s r s' tr.
  { cbn. intros H; inversion H; reflexivity. }
  cbn [filter map].
  loop_step x t s IH; intros H; inversion H; subst; apply IH in E;
    unfold launches in *; cbn; now rewrite ?E.
Qed.

Lemma launch_events_quiet pfs l :
  wait_any_calls (flat_map (launch_events pfs sel line argv) l) = [].
Proof.
  induction l as [|x l IH]; [reflexivity|].
  cbn [flat_map]. apply wait_any_calls_nil_app; [|exact IH].
  unfold launch_events. now destruct (sel x).
Qed.

(** The flag of an armed loop: it keeps [timer_pid] as long as the timer
    is not reaped, and the first reap of the timer makes it [-1]. *)
Lemma loop_flag l t s t' s' tr :
  0 <= t ->
  for_each (guarded_launch w true sel line argv) l t s = (Next t', s', tr) ->
  (t' = t /\ ~ In (Waitpid_any t) tr) \/ (t' = -1 /\ In (Waitpid_any t) tr).
Proof.
  intros Ht. revert s t' s' tr; induction l as [|x l IH]; intros s t' s' tr.
  { cbn. intros H; inversion H; subst. left; split; [reflexivity|intros []]. }
  loop_step x t s IH; intros H; inversion H; subst; clear H.
  - right. rewrite loop_quiet in E by (right; lia). inversion E; subst.
    apply Z.eqb_eq in Hreap. rewrite Hreap. split; [reflexivity|].
    cbn. tauto.
  - apply IH in E. apply Z.eqb_neq in Hreap.
    destruct E as [[-> Hn]|[-> Hi]]; [left|right]; split; try reflexivity.
    + cbn. intros [H|[H|[H|H]]]; try discriminate; [congruence|tauto].
    + cbn. tauto.
  - apply Z.ltb_ge in Ht. rewrite Ht in Harmed. discriminate.
  - cbn. eapply IH; exact E.
Qed.

(** Once the timer is reaped the loop does not block again. *)
Lemma loop_after_reap l t s r s' tr :
  for_each (guarded_launch w true sel line argv) l t s = (r, s', tr) ->
  wait_any_calls (after_reap t tr) = [].
Proof.
  destruct (Z.ltb_spec t 0) as [Hneg|Hpos].
  { rewrite loop_quiet by (right; exact Hneg). intros H; inversion H; subst.
    apply after_reap_quiet, launch_events_quiet. }
  revert s r s' tr; induction l as [|x l IH]; intros s r s' tr.
  { cbn. intros H; inversion H; reflexivity. }
  loop_step x t s IH; intros H; inversion H; subst; clear H.
  - rewrite loop_quiet in E by (right; lia). inversion E; subst.
    cbn [app after_reap is_reap]. rewrite Hreap.
    apply (wait_any_calls_nil_app [_]); [reflexivity|apply launch_events_quiet].
  - cbn [app after_reap is_reap]. rewrite Hreap. now apply IH in E.
  - cbn [app after_reap is_reap]. now apply IH in E.
  - now apply IH in E.
Qed.
End Guarded.

(** ** Lemmas on the macros *)

Lemma PFS_SETUP_run w t0 s :
  PFS_SETUP w true t0 s =
  let pid := xfork_ret w (n_fork s) in
  let s1 := mk_proc (pfs_timeout s) (S (n_fork s)) (n_wait s) (n_clock s) in
  let s2 := mk_proc (pfs_timeout s) (S (S (n_fork s))) (n_wait s) (n_clock s) in
  if negb (pid =? 0) then
    (Return_, s1, if pid <? 0 then [Xfork pid] else [Xfork pid; Waitpid pid])
  else
    let t := xfork_ret w (S (n_fork s)) in
    if t =? 0 then (Exit 0, s2, [Xfork pid; Xfork t; Clock_nanosleep (pfs_timeout s)])
    else (Next t, s2, [Xfork pid; Xfork t]).
Proof.
  unfold PFS_SETUP, bind, xfork_call. cbn.
  destruct (xfork_ret w (n_fork s) =? 0); cbn.
  - destruct (xfork_ret w (S (n_fork s)) =? 0); reflexivity.
  - destruct (xfork_ret w (n_fork s) <? 0); reflexivity.
Qed.

Lemma PFS_DONE_run t s :
  PFS_DONE true t s = (Exit 0, s, if t >? 0 then [Kill t SIGKILL] else []).
Proof. unfold PFS_DONE, bind. destruct (t >? 0); reflexivity. Qed.

(** ** Lemmas on [exec_common_scripts] *)

Section Common.
Variables (cfg : build_config) (w : world) (stage : string) (s : proc).

Local Notation dir := (stage_dir cfg stage).
Local Notation banner := (Log_info ("* Running " ++ stage ++ ".d scripts" ++ nl)%string).
Local Notation loop pfs :=
  (for_each (guarded_launch w pfs (runnable w dir) (common_line stage) (common_argv cfg w dir))).

Lemma common_missing_dir :
  dir_entries w dir = None ->
  exec_common_scripts cfg w stage s = (Return_, s, [banner]).
Proof. intros H. unfold exec_common_scripts, bind, LOGI, emit. now rewrite H. Qed.

Lemma common_untimed es :
  dir_entries w dir = Some es -> is_pfs stage = false ->
  exec_common_scripts cfg w stage s =
  (Next tt, s, banner :: flat_map (launch_events false (runnable w dir) (common_line stage)
                                     (common_argv cfg w dir)) es).
Proof.
  intros Hd Hp. unfold exec_common_scripts, bind at 1, LOGI, emit. rewrite Hd, Hp.
  unfold bind, PFS_SETUP, PFS_DONE, ret.
  rewrite (for_each_ext _ _ (common_body_shape cfg w stage dir false)).
  rewrite loop_quiet by now left. now rewrite app_nil_r.
Qed.

(** The state in which [PFS_SETUP] hands over to the loop. *)
Local Notation deadline :=
  (mk_timespec
     (time_t_wrap (tv_sec (monotonic w (n_clock s)) + POST_FS_DATA_SCRIPT_MAX_TIME cfg))
     (tv_nsec (monotonic w (n_clock s)))).
Local Notation armed := (mk_proc deadline (S (S (n_fork s))) (n_wait s) (S (n_clock s))).
Local Notation prologue pid :=
  [banner; Clock_gettime (monotonic w (n_clock s)); Xfork pid].

(** The caller of a timed stage: it launches nothing itself. *)
Lemma common_caller es :
  dir_entries w dir = Some es -> is_pfs stage = true ->
  xfork_ret w (n_fork s) <> 0 ->
  exec_common_scripts cfg w stage s =
  (Return_, mk_proc deadline (S (n_fork s)) (n_wait s) (S (n_clock s)),
   prologue (xfork_ret w (n_fork s)) ++
   (if xfork_ret w (n_fork s) <? 0 then [] else [Waitpid (xfork_ret w (n_fork s))])).
Proof.
  intros Hd Hp Hf. apply Z.eqb_neq in Hf.
  unfold exec_common_scripts, bind at 1, LOGI, emit. rewrite Hd, Hp.
  unfold bind, clock_gettime, set_pfs_timeout. rewrite PFS_SETUP_run. cbn.
  rewrite Hf. cbn. now destruct (xfork_ret w (n_fork s) <? 0).
Qed.

(** The timer process. *)
Lemma common_timer es :
  dir_entries w dir = Some es -> is_pfs stage = true ->
  xfork_ret w (n_fork s) = 0 -> xfork_ret w (S (n_fork s)) = 0 ->
  exec_common_scripts cfg w stage s =
  (Exit 0, armed, prologue 0 ++ [Xfork 0; Clock_nanosleep deadline]).
Proof.
  intros Hd Hp Hf Ht.
  unfold exec_common_scripts, bind at 1, LOGI, emit. rewrite Hd, Hp.
  unfold bind, clock_gettime, set_pfs_timeout. rewrite PFS_SETUP_run. cbn.
  now rewrite Hf, Ht.
Qed.

(** The subtree process: prologue, loop, epilogue. *)
Lemma common_subtree es t' s' tr :
  dir_entries w dir = Some es -> is_pfs stage = true ->
  xfork_ret w (n_fork s) = 0 -> xfork_ret w (S (n_fork s)) <> 0 ->
  loop true es (xfork_ret w (S (n_fork s))) armed = (Next t', s', tr) ->
  exec_common_scripts cfg w stage s =
  (Exit 0, s',
   prologue 0 ++ [Xfork (xfork_ret w (S (n_fork s)))] ++ tr ++
   (if t' >? 0 then [Kill t' SIGKILL] else [])).
Proof.
  intros Hd Hp Hf Ht Hl. apply Z.eqb_neq in Ht.
  unfold exec_common_scripts, bind at 1, LOGI, emit. rewrite Hd, Hp.
  unfold bind, clock_gettime, set_pfs_timeout. rewrite PFS_SETUP_run. cbn.
  rewrite Hf, Ht. cbn.
  rewrite (for_each_ext _ _ (common_body_shape cfg w stage dir true)), Hl.
  unfold bind. now destruct (t' >? 0).
Qed.
End Common.

(** ** Lemmas on [exec_module_scripts] *)

Section Modules.
Variables (cfg : build_config) (w : world) (stage : string)
          (modules : list string) (s : proc).

Local Notation banner := (Log_info ("* Running module " ++ stage ++ " scripts" ++ nl)%string).
Local Notation loop pfs :=
  (for_each (guarded_launch w pfs (module_present cfg w stage) (module_line stage)
               (module_argv cfg w stage))).
Local Notation quiet :=
  (launch_events false (module_present cfg w stage) (module_line stage)
     (module_argv cfg w stage)).
Local Notation now := (monotonic w (n_clock s)).
Local Notation ticked := (mk_proc (pfs_timeout s) (n_fork s) (n_wait s) (S (n_clock s))).
Local Notation armed :=
  (mk_proc (pfs_timeout s) (S (S (n_fork s))) (n_wait s) (S (n_clock s))).
Local Notation prologue pid := [banner; Clock_gettime now; Xfork pid].

Lemma module_untimed :
  is_pfs stage = false ->
  exec_module_scripts cfg w stage modules s =
  (match modules with [] => Return_ | _ => Next tt end, s, banner :: flat_map quiet modules).
Proof.
  intros Hp. destruct modules as [|m ms]; [reflexivity|].
  unfold exec_module_scripts, bind at 1, LOGI, emit. rewrite Hp.
  unfold bind, PFS_SETUP, PFS_DONE, ret.
  rewrite (for_each_ext _ _ (module_body_shape cfg w stage false)).
  rewrite loop_quiet by now left. now rewrite app_nil_r.
Qed.

(** The deadline has passed: the phase runs as an untimed one. *)
Lemma module_late :
  modules <> [] -> is_pfs stage = true -> timespec_gt now (pfs_timeout s) = true ->
  exec_module_scripts cfg w stage modules s =
  (Next tt, ticked, banner :: Clock_gettime now :: flat_map quiet modules).
Proof.
  intros Hm Hp Hgt. destruct modules as [|m ms]; [congruence|].
  unfold exec_module_scripts, bind at 1, LOGI, emit. rewrite Hp.
  unfold bind, clock_gettime, get_pfs_timeout.
  cbn -[for_each PFS_SETUP PFS_DONE append]. rewrite Hgt. cbn -[for_each PFS_SETUP PFS_DONE append].
  unfold ret, PFS_SETUP. cbn -[for_each PFS_SETUP PFS_DONE append].
  rewrite (for_each_ext _ _ (module_body_shape cfg w stage false)).
  rewrite loop_quiet by now left. unfold PFS_DONE, ret. now rewrite app_nil_r.
Qed.

Lemma module_caller :
  modules <> [] -> is_pfs stage = true -> timespec_gt now (pfs_timeout s) = false ->
  xfork_ret w (n_fork s) <> 0 ->
  exec_module_scripts cfg w stage modules s =
  (Return_, mk_proc (pfs_timeout s) (S (n_fork s)) (n_wait s) (S (n_clock s)),
   prologue (xfork_ret w (n_fork s)) ++
   (if xfork_ret w (n_fork s) <? 0 then [] else [Waitpid (xfork_ret w (n_fork s))])).
Proof.
  intros Hm Hp Hgt Hf. apply Z.eqb_neq in Hf.
  destruct modules as [|m ms]; [congruence|].
  unfold exec_module_scripts, bind at 1, LOGI, emit. rewrite Hp.
  unfold bind, clock_gettime, get_pfs_timeout.
  cbn -[for_each PFS_SETUP PFS_DONE append]. rewrite Hgt. cbn -[for_each PFS_SETUP PFS_DONE append].
  unfold ret. rewrite PFS_SETUP_run. cbn -[for_each PFS_SETUP PFS_DONE append]. rewrite Hf. cbn -[for_each PFS_SETUP PFS_DONE append].
  now destruct (xfork_ret w (n_fork s) <? 0).
Qed.

Lemma module_timer :
  modules <> [] -> is_pfs stage = true -> timespec_gt now (pfs_timeout s) = false ->
  xfork_ret w (n_fork s) = 0 -> xfork_ret w (S (n_fork s)) = 0 ->
  exec_module_scripts cfg w stage modules s =
  (Exit 0, armed, prologue 0 ++ [Xfork 0; Clock_nanosleep (pfs_timeout s)]).
Proof.
  intros Hm Hp Hgt Hf Ht.
  destruct modules as [|m ms]; [congruence|].
  unfold exec_module_scripts, bind at 1, LOGI, emit. rewrite Hp.
  unfold bind, clock_gettime, get_pfs_timeout.
  cbn -[for_each PFS_SETUP PFS_DONE append]. rewrite Hgt. cbn -[for_each PFS_SETUP PFS_DONE append].
  unfold ret. rewrite PFS_SETUP_run. cbn -[for_each PFS_SETUP PFS_DONE append]. now rewrite Hf, Ht.
Qed.

Lemma module_subtree t' s' tr :
  modules <> [] -> is_pfs stage = true -> timespec_gt now (pfs_timeout s) = false ->
  xfork_ret w (n_fork s) = 0 -> xfork_ret w (S (n_fork s)) <> 0 ->
  loop true modules (xfork_ret w (S (n_fork s))) armed = (Next t', s', tr) ->
  exec_module_scripts cfg w stage modules s =
  (Exit 0, s',
   prologue 0 ++ [Xfork (xfork_ret w (S (n_fork s)))] ++ tr ++
   (if t' >? 0 then [Kill t' SIGKILL] else [])).
Proof.
  intros Hm Hp Hgt Hf Ht Hl. apply Z.eqb_neq in Ht.
  destruct modules as [|m ms]; [congruence|].
  unfold exec_module_scripts, bind at 1, LOGI, emit. rewrite Hp.
  unfold bind, clock_gettime, get_pfs_timeout.
  cbn -[for_each PFS_SETUP PFS_DONE append]. rewrite Hgt. cbn -[for_each PFS_SETUP PFS_DONE append].
  unfold ret. rewrite PFS_SETUP_run. cbn -[for_each PFS_SETUP PFS_DONE append]. rewrite Hf, Ht. cbn -[for_each PFS_SETUP PFS_DONE append].
  rewrite (for_each_ext _ _ (module_body_shape cfg w stage true)), Hl.
  rewrite PFS_DONE_run. now destruct (t' >? 0).
Qed.
End Modules.

(** ** Lemmas on phases *)

Lemma filter_map_swap {A B : Type} (f : A -> B) (p : B -> bool) l :
  filter p (map f l) = map f (filter (fun x => p (f x)) l).
Proof.
  induction l as [|x l IH]; [reflexivity|].
  cbn. destruct (p (f x)); cbn; now rewrite IH.
Qed.

Lemma common_launch_list cfg w dir pfs es :
  map (fun e => (script_exec pfs, common_argv cfg w dir e)) (filter (runnable w dir) es) =
  map (script_launch cfg w (fork (script_exec pfs))) (stage_scripts w dir es).
Proof. unfold stage_scripts. now rewrite map_map. Qed.

Lemma module_launch_list cfg w stage pfs modules :
  map (fun m => (script_exec pfs, module_argv cfg w stage m))
      (filter (module_present cfg w stage) modules) =
  map (script_launch cfg w (fork (script_exec pfs))) (present_scripts cfg w stage modules).
Proof. unfold present_scripts. now rewrite filter_map_swap, map_map. Qed.

Lemma quiet_launches {A : Type} (w : world) pfs (sel : A -> bool) line argv l :
  launches (flat_map (launch_events pfs sel line argv) l) =
  map (fun x => (script_exec pfs, argv x)) (filter sel l).
Proof.
  apply (loop_launches w sel line argv pfs l (-1) proc_start (Next (-1)) proc_start).
  apply loop_quiet. destruct pfs; [right; lia | now left].
Qed.

Lemma quiet_frame {A : Type} pfs (sel : A -> bool) line argv l :
  fork_calls (flat_map (launch_events pfs sel line argv) l) = [] /\
  sleep_calls (flat_map (launch_events pfs sel line argv) l) = [].
Proof.
  induction l as [|x l [IHf IHs]]; [now split|].
  unfold fork_calls, sleep_calls in *. cbn [flat_map]. rewrite !filter_app, IHf, IHs.
  unfold launch_events. now destruct (sel x).
Qed.

(** A phase outside the supervisor: every script goes out through
    [fork_dont_care], nothing is forked here, nothing is waited for, and
    control goes back to the caller. *)
Lemma phase_unsupervised cfg w stage ph s :
  supervised cfg w stage ph s = false ->
  exists s' tr,
    call (run_phase cfg w stage ph) s = (Returned, s', tr) /\
    pfs_timeout s' = pfs_timeout s /\
    fork_calls tr = [] /\ sleep_calls tr = [] /\ wait_any_calls tr = [] /\
    launches tr = map (script_launch cfg w fork_dont_care) (phase_scripts cfg w stage ph).
Proof.
  unfold supervised, call. intros H. destruct ph as [|modules]; cbn [run_phase phase_scripts].
  - destruct (dir_entries w (stage_dir cfg stage)) as [es|] eqn:Hd.
    + rewrite andb_true_r in H. rewrite (common_untimed _ _ _ _ es Hd H).
      eexists _, _. split; [reflexivity|]. split; [reflexivity|].
      pose proof (quiet_frame false (runnable w (stage_dir cfg stage)) (common_line stage)
                    (common_argv cfg w (stage_dir cfg stage)) es) as [Hf Hs].
      repeat split.
      * exact Hf.
      * exact Hs.
      * apply (launch_events_quiet _ _ _ false).
      * change (launches (?e :: ?l)) with (launches l).
        rewrite (quiet_launches w). apply common_launch_list.
    + rewrite common_missing_dir by exact Hd. now eexists _, _.
  - destruct modules as [|m ms]; [now eexists _, _|].
    destruct (is_pfs stage) eqn:Hp; cbn [andb] in H.
    + apply negb_false_iff in H. rewrite module_late by (congruence || assumption).
      eexists _, _. split; [reflexivity|]. split; [reflexivity|].
      pose proof (quiet_frame false (module_present cfg w stage) (module_line stage)
                    (module_argv cfg w stage) (m :: ms)) as [Hf Hs].
      repeat split.
      * exact Hf.
      * exact Hs.
      * apply (launch_events_quiet _ _ _ false).
      * change (launches (?e :: ?e' :: ?l)) with (launches l).
        rewrite (quiet_launches w). apply module_launch_list.
    + rewrite module_untimed by exact Hp.
      eexists _, _. split; [reflexivity|]. split; [reflexivity|].
      pose proof (quiet_frame false (module_present cfg w stage) (module_line stage)
                    (module_argv cfg w stage) (m :: ms)) as [Hf Hs].
      repeat split.
      * exact Hf.
      * exact Hs.
      * apply (launch_events_quiet _ _ _ false).
      * change (launches (?e :: ?l)) with (launches l).
        rewrite (quiet_launches w). apply module_launch_list.
Qed.

Lemma supervised_pfs cfg w stage ph s :
  supervised cfg w stage ph s = true -> is_pfs stage = true.
Proof. unfold supervised. now intros [H _]%andb_prop. Qed.

(** The first event of a supervised phase after its banner and clock
    reading is the subtree fork; the process that gets a non-zero answer
    launches nothing and is back at its caller at once (after waiting for
    the subtree, if there is one). *)
Lemma phase_caller cfg w stage ph s :
  supervised cfg w stage ph s = true ->
  xfork_ret w (n_fork s) <> 0 ->
  exists line s',
    run_phase cfg w stage ph s =
    (Return_, s',
     [Log_info line; Clock_gettime (monotonic w (n_clock s)); Xfork (xfork_ret w (n_fork s))] ++
     (if xfork_ret w (n_fork s) <? 0 then [] else [Waitpid (xfork_ret w (n_fork s))])).
Proof.
  intros H Hf. pose proof (supervised_pfs _ _ _ _ _ H) as Hp.
  unfold supervised in H. rewrite Hp in H. cbn [andb] in H.
  destruct ph as [|modules]; cbn [run_phase].
  - destruct (dir_entries w (stage_dir cfg stage)) as [es|] eqn:Hd; [|discriminate].
    rewrite (common_caller _ _ _ _ es Hd Hp Hf). now eexists _, _.
  - destruct modules as [|m ms]; [discriminate|]. apply negb_true_iff in H.
    rewrite module_caller by (congruence || assumption). now eexists _, _.
Qed.

(** The timer process sleeps until the deadline and exits. *)
Lemma phase_timer cfg w stage ph s :
  supervised cfg w stage ph s = true ->
  xfork_ret w (n_fork s) = 0 -> xfork_ret w (S (n_fork s)) = 0 ->
  exists line s' deadline,
    run_phase cfg w stage ph s =
    (Exit 0, s',
     [Log_info line; Clock_gettime (monotonic w (n_clock s)); Xfork 0; Xfork 0;
      Clock_nanosleep deadline]).
Proof.
  intros H Hf Ht. pose proof (supervised_pfs _ _ _ _ _ H) as Hp.
  unfold supervised in H. rewrite Hp in H. cbn [andb] in H.
  destruct ph as [|modules]; cbn [run_phase].
  - destruct (dir_entries w (stage_dir cfg stage)) as [es|] eqn:Hd; [|discriminate].
    rewrite (common_timer _ _ _ _ es Hd Hp Hf Ht). now eexists _, _, _.
  - destruct modules as [|m ms]; [discriminate|]. apply negb_true_iff in H.
    rewrite module_timer by (congruence || assumption). now eexists _, _, _.
Qed.

(** The subtree process: after the two forks it runs the loop over the
    scripts of the phase and leaves through [PFS_DONE]. *)
Lemma phase_subtree cfg w stage ph s :
  supervised cfg w stage ph s = true ->
  xfork_ret w (n_fork s) = 0 -> xfork_ret w (S (n_fork s)) <> 0 ->
  let timer := xfork_ret w (S (n_fork s)) in
  exists line t' s' tr,
    run_phase cfg w stage ph s =
    (Exit 0, s',
     [Log_info line; Clock_gettime (monotonic w (n_clock s)); Xfork 0] ++ [Xfork timer] ++ tr ++
     (if t' >? 0 then [Kill t' SIGKILL] else [])) /\
    launches tr = map (script_launch cfg w xfork) (phase_scripts cfg w stage ph) /\
    wait_any_calls (after_reap timer tr) = [] /\
    (timer < 0 -> t' = timer /\ wait_any_calls tr = []) /\
    (0 <= timer -> (t' = timer /\ ~ In (Waitpid_any timer) tr) \/
                   (t' = -1 /\ In (Waitpid_any timer) tr)).
Proof.
  intros H Hf Ht timer. pose proof (supervised_pfs _ _ _ _ _ H) as Hp.
  unfold supervised in H. rewrite Hp in H. cbn [andb] in H.
  destruct ph as [|modules]; cbn [run_phase phase_scripts].
  - destruct (dir_entries w (stage_dir cfg stage)) as [es|] eqn:Hd; [|discriminate].
    match goal with |- context [Clock_gettime ?n] => set (now := n) end.
    destruct (loop_next w (runnable w (stage_dir cfg stage)) (common_line stage)
                (common_argv cfg w (stage_dir cfg stage)) true es timer
                (mk_proc (mk_timespec
                            (time_t_wrap (tv_sec now + POST_FS_DATA_SCRIPT_MAX_TIME cfg))
                            (tv_nsec now))
                         (S (S (n_fork s))) (n_wait s) (S (n_clock s))))
      as (t' & s' & tr & Hl).
    rewrite (common_subtree _ _ _ _ es t' s' tr Hd Hp Hf Ht Hl).
    eexists _, t', s', tr. split; [reflexivity|]. repeat split.
    + rewrite (loop_launches _ _ _ _ _ _ _ _ _ _ _ Hl). apply common_launch_list.
    + apply (loop_after_reap _ _ _ _ _ _ _ _ _ _ Hl).
    + rewrite loop_quiet in Hl by (right; assumption). now inversion Hl.
    + rewrite loop_quiet in Hl by (right; assumption). inversion Hl; subst.
      apply launch_events_quiet.
    + intros H0. apply (loop_flag _ _ _ _ _ _ _ _ _ _ H0 Hl).
  - destruct modules as [|m ms] eqn:Hm; [discriminate|]. rewrite <- Hm.
    apply negb_true_iff in H.
    destruct (loop_next w (module_present cfg w stage) (module_line stage)
                (module_argv cfg w stage) true modules timer
                (mk_proc (pfs_timeout s) (S (S (n_fork s))) (n_wait s) (S (n_clock s))))
      as (t' & s' & tr & Hl).
    assert (Hne : modules <> []) by congruence.
    rewrite (module_subtree _ _ _ _ _ t' s' tr Hne Hp H Hf Ht Hl).
    eexists _, t', s', tr. split; [reflexivity|]. repeat split.
    + rewrite (loop_launches _ _ _ _ _ _ _ _ _ _ _ Hl). apply module_launch_list.
    + apply (loop_after_reap _ _ _ _ _ _ _ _ _ _ Hl).
    + rewrite loop_quiet in Hl by (right; assumption). now inversion Hl.
    + rewrite loop_quiet in Hl by (right; assumption). inversion Hl; subst.
      apply launch_events_quiet.
    + intros H0. apply (loop_flag _ _ _ _ _ _ _ _ _ _ H0 Hl).
Qed.

Lemma call_inv f s o s' tr :
  call f s = (o, s', tr) ->
  exists r, f s = (r, s', tr) /\
            o = match r with Exit c => Exited c | _ => Returned end.
Proof.
  unfold call. destruct (f s) as [[[[]| |c] s1] tr1]; intros H; inversion H; subst;
    now eexists.
Qed.

Lemma no_wait_no_reap timer tr pre post :
  wait_any_calls tr = [] -> tr <> pre ++ Waitpid_any timer :: post.
Proof.
  intros H ->. rewrite wait_any_calls_app in H. apply app_eq_nil in H as [_ H].
  discriminate.
Qed.

Lemma launches_all_use f timer tr :
  Forall (fun l => fork (fst l) = f) (launches tr) -> launches_after_reap_use f timer tr.
Proof.
  intros H pre post exec argv -> Hin. rewrite Forall_forall in H.
  apply (H (exec, argv)). apply launches_in. apply in_or_app. right. now right.
Qed.

Lemma script_launch_policy cfg w f l :
  Forall (fun x => fork (fst x) = f) (map (script_launch cfg w f) l).
Proof. apply Forall_forall. intros x [p [<- _]]%in_map_iff. reflexivity. Qed.

(** Every trace of a phase of the timed stage: nothing blocks after the
    first reap of the timer, and the trace either has no blocking wait at
    all or launches everything through [xfork]. *)
Lemma timed_phase_trace cfg w stage ph s :
  is_pfs stage = true ->
  let timer := xfork_ret w (S (n_fork s)) in
  let tr := snd (run_phase cfg w stage ph s) in
  wait_any_calls (after_reap timer tr) = [] /\
  (wait_any_calls tr = [] \/ Forall (fun l => fork (fst l) = xfork) (launches tr)).
Proof.
  intros Hp timer tr. subst tr.
  destruct (supervised cfg w stage ph s) eqn:Hs.
  - destruct (Z.eq_dec (xfork_ret w (n_fork s)) 0) as [Hf|Hf].
    + destruct (Z.eq_dec (xfork_ret w (S (n_fork s))) 0) as [Ht|Ht].
      * destruct (phase_timer _ _ _ _ _ Hs Hf Ht) as (b & s' & d & ->).
        split; [reflexivity | left; reflexivity].
      * destruct (phase_subtree _ _ _ _ _ Hs Hf Ht) as (b & t' & s' & tr & -> & Hl & Ha & _).
        cbn [snd]. split.
        -- rewrite after_reap_skip by reflexivity. rewrite after_reap_skip by reflexivity.
           apply after_reap_app; [exact Ha|]. now destruct (t' >? 0).
        -- right. rewrite !launches_app, Hl.
           replace (launches (if t' >? 0 then [Kill t' SIGKILL] else [])) with
             (@nil (exec_t * list string)) by now destruct (t' >? 0).
           cbn. rewrite app_nil_r. apply script_launch_policy.
    + destruct (phase_caller _ _ _ _ _ Hs Hf) as (b & s' & ->). cbn [snd].
      assert (wait_any_calls
                ([Log_info b; Clock_gettime (monotonic w (n_clock s)); Xfork (xfork_ret w (n_fork s))] ++
                 (if xfork_ret w (n_fork s) <? 0 then []
                  else [Waitpid (xfork_ret w (n_fork s))])) = []) as Hq.
      { destruct (xfork_ret w (n_fork s) <? 0); reflexivity. }
      split; [now apply after_reap_quiet | now left].
  - destruct (phase_unsupervised _ _ _ _ _ Hs) as (s' & tr & Hc & _ & _ & _ & Hw & _).
    apply call_inv in Hc as (r & -> & _). cbn [snd].
    split; [now apply after_reap_quiet | now left].
Qed.

(** ** Properties of the specification *)

(** C1 (as amended).  Timed stage, either phase: once [waitpid(-1)] has
    handed back the timer's pid, every script launched afterwards in that
    phase is still launched through the plain fork primitive [xfork], as
    before the deadline, and no wait-for-any-child call follows.  The
    detach-dont-care primitive is what a later module phase uses throughout
    when its fresh timestamp is strictly greater than the stored deadline;
    that phase does not wait either. *)
Theorem post_reap_launches_fork_without_wait :
  (forall cfg w ph s,
     let timer := xfork_ret w (S (n_fork s)) in
     let tr := snd (run_phase cfg w "post-fs-data" ph s) in
     launches_after_reap_use xfork timer tr /\ no_wait_after_reap timer tr) /\
  (forall cfg w modules s,
     timespec_gt (monotonic w (n_clock s)) (pfs_timeout s) = true ->
     let tr := snd (exec_module_scripts cfg w "post-fs-data" modules s) in
     launches tr =
       map (script_launch cfg w fork_dont_care) (present_scripts cfg w "post-fs-data" modules) /\
     wait_any_calls tr = []).
Proof.
  split.
  - intros cfg w ph s timer tr.
    destruct (timed_phase_trace cfg w "post-fs-data" ph s eq_refl) as [Ha Hl].
    fold timer in Ha. fold tr in Ha, Hl. split.
    + destruct Hl as [Hq|Hx]; [|now apply launches_all_use].
      intros pre post exec argv E. now apply no_wait_no_reap in E.
    + now apply after_reap_no_wait.
  - intros cfg w modules s Hgt tr. subst tr.
    destruct (phase_unsupervised cfg w "post-fs-data" (Module_phase modules) s)
      as (s' & tr & Hc & _ & _ & _ & Hw & Hl).
    { cbn. rewrite Hgt. now destruct modules. }
    apply call_inv in Hc as (r & Hr & _). cbn [run_phase] in Hr. rewrite Hr. now split.
Qed.




Lemma late_module_lemma cfg w modules s :
  timespec_gt (monotonic w (n_clock s)) (pfs_timeout s) = true ->
  exists s' tr,
    call (exec_module_scripts cfg w "post-fs-data" modules) s = (Returned, s', tr) /\
    fork_calls tr = [] /\ sleep_calls tr = [] /\ wait_any_calls tr = [] /\
    launches tr =
      map (script_launch cfg w fork_dont_care) (present_scripts cfg w "post-fs-data" modules).
Proof.
  intros Hgt.
  destruct (phase_unsupervised cfg w "post-fs-data" (Module_phase modules) s)
    as (s' & tr & Hc & _ & H).
  { cbn. rewrite Hgt. now destruct modules. }
  now exists s', tr.
Qed.

Lemma missing_stage_dir_lemma cfg w stage s :
  dir_entries w (stage_dir cfg stage) = None ->
  call (exec_common_scripts cfg w stage) s = (Returned, s, [common_banner stage]).
Proof. intros H. unfold call. now rewrite common_missing_dir. Qed.

(** C3.  When [exec_module_scripts] of the timed stage reads a timestamp
    that [operator>] finds greater than the stored deadline, it makes no
    fork of its own (neither subtree nor timer), nobody sleeps, every
    module script that exists is launched through [fork_dont_care], no
    wait-for-any-child call is made, and the function returns to its
    caller. *)
Theorem late_module_phase_unsupervised cfg w modules s :
  timespec_gt (monotonic w (n_clock s)) (pfs_timeout s) = true ->
  exists s' tr,
    call (exec_module_scripts cfg w "post-fs-data" modules) s = (Returned, s', tr) /\
    fork_calls tr = [] /\ sleep_calls tr = [] /\ wait_any_calls tr = [] /\
    launches tr =
      map (script_launch cfg w fork_dont_care) (present_scripts cfg w "post-fs-data" modules).
Proof. apply late_module_lemma. Qed.

(** C4 (as amended).  One phase of the timed stage (one call of
    [exec_common_scripts] or of [exec_module_scripts]), subtree process,
    the fork of the timer fails: every script of that phase is still
    launched, no wait-for-any-child call is made in that call, and the
    subtree leaves through [exit(0)].  The failure is local to the call:
    [timer_pid] is a local of the function and [PFS_SETUP] runs again in
    the next phase. *)
Theorem timer_fork_failure_never_blocks cfg w stage ph s :
  supervised cfg w stage ph s = true ->
  xfork_ret w (n_fork s) = 0 ->
  xfork_ret w (S (n_fork s)) < 0 ->
  exists s' tr,
    run_phase cfg w stage ph s = (Exit 0, s', tr) /\
    launches tr = map (script_launch cfg w xfork) (phase_scripts cfg w stage ph) /\
    wait_any_calls tr = [].
Proof.
  intros Hs Hf Ht.
  destruct (phase_subtree _ _ _ _ _ Hs Hf) as (line & t' & s' & tr & -> & Hl & _ & Hq & _);
    [lia|].
  destruct (Hq Ht) as [-> Hw].
  replace (xfork_ret w (S (n_fork s)) >? 0) with false by (symmetry; rewrite Z.gtb_ltb; apply Z.ltb_ge; lia).
  eexists _, _. split; [reflexivity|]. split.
  - rewrite !launches_app, Hl. cbn. now rewrite app_nil_r.
  - rewrite !wait_any_calls_app, Hw. reflexivity.
Qed.

(** C5.  Timed stage, subtree process, timer forked with pid [timer > 0]
    and never handed back by [waitpid(-1)]: the last thing the subtree
    does before [exit(0)] is [kill(timer, SIGKILL)]. *)
Theorem unfired_timer_is_killed cfg w stage ph s r s' tr :
  supervised cfg w stage ph s = true ->
  xfork_ret w (n_fork s) = 0 ->
  0 < xfork_ret w (S (n_fork s)) ->
  run_phase cfg w stage ph s = (r, s', tr) ->
  ~ In (Waitpid_any (xfork_ret w (S (n_fork s)))) tr ->
  r = Exit 0 /\ exists pre, tr = pre ++ [Kill (xfork_ret w (S (n_fork s))) SIGKILL].
Proof.
  intros Hs Hf Ht Hrun Hn.
  destruct (phase_subtree _ _ _ _ _ Hs Hf) as (line & t' & s1 & tr1 & E & _ & _ & _ & Hflag);
    [lia|].
  rewrite E in Hrun. inversion Hrun; subst. clear Hrun. split; [reflexivity|].
  assert (Hpos : 0 <= xfork_ret w (S (n_fork s))) by lia.
  destruct (Hflag Hpos) as [[-> _]|[_ Hi]].
  - replace (xfork_ret w (S (n_fork s)) >? 0) with true by (symmetry; rewrite Z.gtb_ltb; apply Z.ltb_lt; lia).
    exists ([Log_info line; Clock_gettime (monotonic w (n_clock s)); Xfork 0;
             Xfork (xfork_ret w (S (n_fork s)))] ++ tr1).
    now rewrite <- app_assoc.
  - exfalso. apply Hn. do 4 right. apply in_or_app. now left.
Qed.

Lemma subtree_launches line now timer tr t' :
  launches ([Log_info line; Clock_gettime now; Xfork 0] ++ [Xfork timer] ++ tr ++
            (if t' >? 0 then [Kill t' SIGKILL] else [])) = launches tr.
Proof.
  rewrite !launches_app. cbn. destruct (t' >? 0); cbn; now rewrite app_nil_r.
Qed.

(** C6.  In the process that runs the loop of [exec_common_scripts] (the
    caller itself for an untimed stage, the subtree process for the timed
    one), the launches are, in listing order, exactly the entries of type
    [DT_REG] for which [faccessat(.., X_OK, ..)] succeeds; each is launched
    once, as [<busybox> sh <stage dir>/<name>]. *)
Theorem common_launches_runnable_entries cfg w stage s es :
  dir_entries w (stage_dir cfg stage) = Some es ->
  (is_pfs stage = true ->
   xfork_ret w (n_fork s) = 0 /\ xfork_ret w (S (n_fork s)) <> 0) ->
  launches (snd (exec_common_scripts cfg w stage s)) =
  map (script_launch cfg w (if is_pfs stage then xfork else fork_dont_care))
      (stage_scripts w (stage_dir cfg stage) es).
Proof.
  intros Hd Hsub. destruct (is_pfs stage) eqn:Hp.
  - destruct (Hsub eq_refl) as [Hf Ht].
    assert (Hs : supervised cfg w stage Directory_phase s = true).
    { unfold supervised. now rewrite Hp, Hd. }
    destruct (phase_subtree _ _ _ _ _ Hs Hf Ht) as (line & t' & s' & tr & E & Hl & _).
    cbn [run_phase phase_scripts] in E, Hl. rewrite Hd in Hl. rewrite E. cbn [snd].
    now rewrite subtree_launches.
  - rewrite (common_untimed _ _ _ _ es Hd Hp). cbn [snd].
    change (launches (?e :: ?l)) with (launches l).
    rewrite (quiet_launches w). apply common_launch_list.
Qed.

(** C7.  In the process that runs the loop of [exec_module_scripts], the
    launches are, in the order of the module list, exactly the scripts
    [<MODULEROOT>/<module>/<stage>.sh] for which [access(.., F_OK)] does
    not fail, one per module; a module without the file leaves no trace,
    and the only way the function ends other than by returning is
    [exit(0)]. *)
Theorem module_launches_present_scripts cfg w stage modules s :
  (supervised cfg w stage (Module_phase modules) s = true ->
   xfork_ret w (n_fork s) = 0 /\ xfork_ret w (S (n_fork s)) <> 0) ->
  exists r s' tr,
    exec_module_scripts cfg w stage modules s = (r, s', tr) /\
    launches tr =
      map (script_launch cfg w
             (if supervised cfg w stage (Module_phase modules) s then xfork
              else fork_dont_care))
          (present_scripts cfg w stage modules) /\
    (forall c, r = Exit c -> c = 0).
Proof.
  intros Hsub. destruct (supervised cfg w stage (Module_phase modules) s) eqn:Hs.
  - destruct (Hsub eq_refl) as [Hf Ht].
    destruct (phase_subtree _ _ _ _ _ Hs Hf Ht) as (line & t' & s' & tr & E & Hl & _).
    cbn [run_phase phase_scripts] in E, Hl. eexists _, _, _. split; [exact E|]. split.
    + now rewrite subtree_launches.
    + intros c H. now inversion H.
  - destruct (phase_unsupervised _ _ _ _ _ Hs) as (s' & tr & Hc & _ & _ & _ & _ & Hl).
    apply call_inv in Hc as (r & Hr & Ho). cbn [run_phase phase_scripts] in Hr, Hl.
    exists r, s', tr. split; [exact Hr|]. split; [exact Hl|].
    intros c ->. discriminate.
Qed.

(** C8.  Any stage: when the stage directory cannot be opened,
    [exec_common_scripts] logs its banner and returns; nothing is
    launched, forked or waited for, the state is untouched, and the caller
    gets no error (the function has none to give). *)
Theorem missing_stage_dir_empty_run cfg w stage s :
  dir_entries w (stage_dir cfg stage) = None ->
  call (exec_common_scripts cfg w stage) s = (Returned, s, [common_banner stage]).
Proof. apply missing_stage_dir_lemma. Qed.

(** C9.  The deadline is still the zero of static initialisation, the
    directory of the timed stage is missing: [exec_common_scripts] returns
    before it computes a deadline, [pfs_timeout] stays zero, and a
    following [exec_module_scripts] of the timed stage, reading a clock
    that is past zero, forks nothing, arms no timer, waits for nothing and
    launches every present module script through [fork_dont_care]. *)
Theorem missing_dir_keeps_zero_deadline cfg w modules s :
  pfs_timeout s = mk_timespec 0 0 ->
  dir_entries w (stage_dir cfg "post-fs-data") = None ->
  after_boot (monotonic w (n_clock s)) ->
  exists s1 tr1 s2 tr2,
    call (exec_common_scripts cfg w "post-fs-data") s = (Returned, s1, tr1) /\
    pfs_timeout s1 = mk_timespec 0 0 /\ n_clock s1 = n_clock s /\ launches tr1 = [] /\
    call (exec_module_scripts cfg w "post-fs-data" modules) s1 = (Returned, s2, tr2) /\
    fork_calls tr2 = [] /\ sleep_calls tr2 = [] /\ wait_any_calls tr2 = [] /\
    launches tr2 =
      map (script_launch cfg w fork_dont_care) (present_scripts cfg w "post-fs-data" modules).
Proof.
  intros Hz Hd Hboot.
  assert (Hgt : timespec_gt (monotonic w (n_clock s)) (pfs_timeout s) = true).
  { rewrite Hz. unfold timespec_gt. cbn [tv_sec tv_nsec].
    destruct Hboot as [H|[H1 H2]].
    - replace (tv_sec (monotonic w (n_clock s)) =? 0) with false by (symmetry; apply Z.eqb_neq; lia).
      cbn [negb]. rewrite Z.gtb_ltb. apply Z.ltb_lt. lia.
    - rewrite H1. cbn. rewrite Z.gtb_ltb. apply Z.ltb_lt. lia. }
  destruct (late_module_lemma cfg w modules s Hgt) as (s2 & tr2 & Hc & H).
  exists s, [common_banner "post-fs-data"], s2, tr2.
  split; [now apply missing_stage_dir_lemma|].
  split; [exact Hz|]. split; [reflexivity|]. split; [reflexivity|].
  split; [exact Hc|]. exact H.
Qed.

(** C10.  A supervised phase whose first fork fails: the function returns
    right after the failed [xfork]; its whole trace is the banner, the
    clock reading and that fork, so no script of the phase is launched. *)
Theorem subtree_fork_failure_skips_phase cfg w stage ph s :
  supervised cfg w stage ph s = true ->
  xfork_ret w (n_fork s) < 0 ->
  exists line s',
    run_phase cfg w stage ph s =
    (Return_, s',
     [Log_info line; Clock_gettime (monotonic w (n_clock s));
      Xfork (xfork_ret w (n_fork s))]).
Proof.
  intros Hs Hf.
  destruct (phase_caller _ _ _ _ _ Hs) as (line & s' & E); [lia|].
  exists line, s'. rewrite E.
  replace (xfork_ret w (n_fork s) <? 0) with true by (symmetry; apply Z.ltb_lt; lia).
  reflexivity.
Qed.

(** ** The properties on the sample worlds *)

(** C1 as it was stated fails.  Subtree of a post-fs-data run, timer pid 77:
    the second [waitpid(-1)] hands back 77, and [30-late], launched after
    that, still goes out through [xfork], not through [fork_dont_care]. *)
Lemma post_reap_launch_not_dont_care :
  ~ launches_after_reap_use fork_dont_care (xfork_ret subtree_world 1)
      (snd (run_phase example_cfg subtree_world "post-fs-data" Directory_phase proc_start)).
Proof.
  intros H.
  set (tr := snd (run_phase example_cfg subtree_world "post-fs-data" Directory_phase
                    proc_start)) in H.
  assert (E : fork (script_exec true) = fork_dont_care).
  { apply (H (firstn 9 tr) (skipn 10 tr) (script_exec true)
             [bbpath example_cfg subtree_world; "sh"; "/data/adb/post-fs-data.d/30-late"%string]).
    - vm_compute. reflexivity.
    - vm_compute. tauto. }
  discriminate E.
Qed.

(** C4 as it was stated, for the stage as a whole, fails.  In the subtree
    of the directory phase the timer fork fails; the daemon comes back,
    reads the clock at 40 s, before the deadline of 47 s, and the subtree
    of its module phase forks a timer (pid 77) and blocks in
    [waitpid(-1)] after launching the script of module alpha. *)
Lemma timer_fork_failure_later_phase_blocks :
  ~ stage_expired_after_timer_failure example_cfg no_timer_world module_subtree_world
      ["alpha"; "beta"]%string proc_start.
Proof.
  intros H.
  assert (Hsame : same_stage no_timer_world module_subtree_world proc_start).
  { repeat split. }
  destruct (H eq_refl eq_refl eq_refl Hsame) as [_ Hmod].
  destruct (call (exec_common_scripts example_cfg module_subtree_world "post-fs-data")
              proc_start) as [[o s1] tr1] eqn:E.
  assert (Ho : o = Returned) by (vm_compute in E; now inversion E).
  subst o. pose proof (Hmod s1 tr1 eq_refl) as Hq.
  assert (Hs1 : s1 = mk_proc (mk_timespec 47 500) 1 0 1)
    by (vm_compute in E; now inversion E).
  subst s1. vm_compute in Hq. discriminate Hq.
Qed.

Lemma post_reap_launches_fork_without_wait_witness :
  exists pre post,
    snd (run_phase example_cfg subtree_world "post-fs-data" Directory_phase proc_start) =
      pre ++ Waitpid_any 77 :: post /\
    In (Exec_command (script_exec true)
          [bbpath example_cfg subtree_world; "sh"; "/data/adb/post-fs-data.d/30-late"%string])
       post /\
    fork (script_exec true) = xfork /\
    wait_any_calls post = [] /\
    wait_any_calls
      (snd (exec_module_scripts example_cfg subtree_world "post-fs-data" ["alpha"; "beta"]%string
              proc_start)) = [].
Proof.
  pose (tr := snd (run_phase example_cfg subtree_world "post-fs-data" Directory_phase
                     proc_start)).
  assert (E : tr = firstn 9 tr ++ Waitpid_any 77 :: skipn 10 tr) by (vm_compute; reflexivity).
  assert (I : In (Exec_command (script_exec true)
                    [bbpath example_cfg subtree_world; "sh";
                     "/data/adb/post-fs-data.d/30-late"%string]) (skipn 10 tr))
    by (vm_compute; tauto).
  destruct post_reap_launches_fork_without_wait as [Hdir Hmod].
  destruct (Hdir example_cfg subtree_world Directory_phase proc_start) as [Huse Hquiet].
  exists (firstn 9 tr), (skipn 10 tr).
  split; [exact E|]. split; [exact I|].
  split; [exact (Huse _ _ _ _ E I)|].
  split; [exact (Hquiet _ _ E)|].
  exact (proj2 (Hmod example_cfg subtree_world ["alpha"; "beta"]%string proc_start eq_refl)).
Defined.


Lemma late_module_phase_unsupervised_witness :
  timespec_gt (monotonic subtree_world 0) (pfs_timeout proc_start) = true /\
  exists s' tr,
    call (exec_module_scripts example_cfg subtree_world "post-fs-data" ["alpha"; "beta"]%string)
      proc_start = (Returned, s', tr) /\
    fork_calls tr = [] /\ sleep_calls tr = [] /\ wait_any_calls tr = [] /\
    launches tr =
      map (script_launch example_cfg subtree_world fork_dont_care)
        (present_scripts example_cfg subtree_world "post-fs-data" ["alpha"; "beta"]%string).
Proof.
  split; [reflexivity|].
  apply (late_module_phase_unsupervised example_cfg subtree_world ["alpha"; "beta"]%string
           proc_start).
  reflexivity.
Defined.

Lemma timer_fork_failure_never_blocks_witness :
  supervised example_cfg no_timer_world "post-fs-data" Directory_phase proc_start = true /\
  xfork_ret no_timer_world 0 = 0 /\
  xfork_ret no_timer_world 1 < 0 /\
  exists s' tr,
    run_phase example_cfg no_timer_world "post-fs-data" Directory_phase proc_start =
      (Exit 0, s', tr) /\
    launches tr =
      map (script_launch example_cfg no_timer_world xfork)
        (phase_scripts example_cfg no_timer_world "post-fs-data" Directory_phase) /\
    wait_any_calls tr = [].
Proof.
  split; [reflexivity|]. split; [reflexivity|]. split; [reflexivity|].
  apply (timer_fork_failure_never_blocks example_cfg no_timer_world "post-fs-data"
           Directory_phase proc_start); reflexivity.
Defined.

Lemma unfired_timer_is_killed_witness :
  supervised example_cfg calm_world "post-fs-data" Directory_phase proc_start = true /\
  xfork_ret calm_world 0 = 0 /\
  0 < xfork_ret calm_world 1 /\
  ~ In (Waitpid_any 77)
      (snd (run_phase example_cfg calm_world "post-fs-data" Directory_phase proc_start)) /\
  exists pre,
    snd (run_phase example_cfg calm_world "post-fs-data" Directory_phase proc_start) =
    pre ++ [Kill 77 SIGKILL].
Proof.
  assert (N : ~ In (Waitpid_any 77)
                (snd (run_phase example_cfg calm_world "post-fs-data" Directory_phase
                        proc_start))).
  { vm_compute. intros H.
    repeat (destruct H as [H|H]; [discriminate H|]). exact H. }
  split; [reflexivity|]. split; [reflexivity|]. split; [reflexivity|]. split; [exact N|].
  apply (unfired_timer_is_killed example_cfg calm_world "post-fs-data" Directory_phase
           proc_start
           (fst (fst (run_phase example_cfg calm_world "post-fs-data" Directory_phase
                        proc_start)))
           (snd (fst (run_phase example_cfg calm_world "post-fs-data" Directory_phase
                        proc_start)))
           (snd (run_phase example_cfg calm_world "post-fs-data" Directory_phase
                   proc_start))).
  - reflexivity.
  - reflexivity.
  - reflexivity.
  - vm_compute. reflexivity.
  - exact N.
Defined.

Lemma common_launches_runnable_entries_witness :
  dir_entries subtree_world (stage_dir example_cfg "post-fs-data") = Some stage_listing /\
  (is_pfs "post-fs-data" = true ->
   xfork_ret subtree_world 0 = 0 /\ xfork_ret subtree_world 1 <> 0) /\
  map snd
    (launches (snd (exec_common_scripts example_cfg subtree_world "post-fs-data" proc_start))) =
  [ ["/sbin/.magisk/busybox/busybox"; "sh"; "/data/adb/post-fs-data.d/10-fast"];
    ["/sbin/.magisk/busybox/busybox"; "sh"; "/data/adb/post-fs-data.d/20-slow"];
    ["/sbin/.magisk/busybox/busybox"; "sh"; "/data/adb/post-fs-data.d/30-late"] ]%string.
Proof.
  assert (F : is_pfs "post-fs-data" = true ->
              xfork_ret subtree_world 0 = 0 /\ xfork_ret subtree_world 1 <> 0).
  { intros _. split; [reflexivity|discriminate]. }
  split; [reflexivity|]. split; [exact F|].
  rewrite (common_launches_runnable_entries example_cfg subtree_world "post-fs-data"
             proc_start stage_listing eq_refl F).
  reflexivity.
Defined.

Lemma module_launches_present_scripts_witness :
  supervised example_cfg subtree_world "post-fs-data" (Module_phase ["alpha"; "beta"]%string)
    (mk_proc (mk_timespec 47 500) 0 0 0) = true /\
  exists r s' tr,
    exec_module_scripts example_cfg subtree_world "post-fs-data" ["alpha"; "beta"]%string
      (mk_proc (mk_timespec 47 500) 0 0 0) = (r, s', tr) /\
    launches tr =
      [script_launch example_cfg subtree_world xfork ".magisk/modules/alpha/post-fs-data.sh"%string] /\
    (forall c, r = Exit c -> c = 0).
Proof.
  split; [reflexivity|].
  apply (module_launches_present_scripts example_cfg subtree_world "post-fs-data"
           ["alpha"; "beta"]%string (mk_proc (mk_timespec 47 500) 0 0 0)).
  intros _. split; [reflexivity|discriminate].
Defined.

Lemma missing_stage_dir_empty_run_witness :
  dir_entries bare_world (stage_dir example_cfg "service") = None /\
  call (exec_common_scripts example_cfg bare_world "service") proc_start =
  (Returned, proc_start, [common_banner "service"]).
Proof.
  split; [reflexivity|].
  apply (missing_stage_dir_empty_run example_cfg bare_world "service" proc_start).
  reflexivity.
Defined.

Lemma missing_dir_keeps_zero_deadline_witness :
  pfs_timeout proc_start = mk_timespec 0 0 /\
  dir_entries bare_world (stage_dir example_cfg "post-fs-data") = None /\
  after_boot (monotonic bare_world 0) /\
  exists s1 tr1 s2 tr2,
    call (exec_common_scripts example_cfg bare_world "post-fs-data") proc_start =
      (Returned, s1, tr1) /\
    pfs_timeout s1 = mk_timespec 0 0 /\ n_clock s1 = 0%nat /\ launches tr1 = [] /\
    call (exec_module_scripts example_cfg bare_world "post-fs-data" ["alpha"; "beta"]%string) s1 =
      (Returned, s2, tr2) /\
    fork_calls tr2 = [] /\ sleep_calls tr2 = [] /\ wait_any_calls tr2 = [] /\
    launches tr2 =
      map (script_launch example_cfg bare_world fork_dont_care)
        (present_scripts example_cfg bare_world "post-fs-data" ["alpha"; "beta"]%string).
Proof.
  assert (B : after_boot (monotonic bare_world 0)) by (left; reflexivity).
  split; [reflexivity|]. split; [reflexivity|]. split; [exact B|].
  apply (missing_dir_keeps_zero_deadline example_cfg bare_world ["alpha"; "beta"]%string
           proc_start eq_refl eq_refl B).
Defined.

Lemma subtree_fork_failure_skips_phase_witness :
  supervised example_cfg no_fork_world "post-fs-data" Directory_phase proc_start = true /\
  xfork_ret no_fork_world 0 < 0 /\
  exists line s',
    run_phase example_cfg no_fork_world "post-fs-data" Directory_phase proc_start =
    (Return_, s', [Log_info line; Clock_gettime (mk_timespec 12 500); Xfork (-1)]).
Proof.
  split; [reflexivity|]. split; [reflexivity|].
  apply (subtree_fork_failure_skips_phase example_cfg no_fork_world "post-fs-data"
           Directory_phase proc_start); reflexivity.
Defined.

(** ** The books of the loops *)

Lemma launches_length_app a b :
  List.length (launches (a ++ b)) = (List.length (launches a) + List.length (launches b))%nat.
Proof. now rewrite launches_app, length_app. Qed.

Lemma wait_any_length_app a b :
  List.length (wait_any_calls (a ++ b)) =
  (List.length (wait_any_calls a) + List.length (wait_any_calls b))%nat.
Proof. now rewrite wait_any_calls_app, length_app. Qed.

Section Account.
Context {A : Type} (w : world) (sel : A -> bool)
        (line : A -> string) (argv : A -> list string).

Lemma launch_events_plain pfs l :
  fork_calls (flat_map (launch_events pfs sel line argv) l) = [] /\
  sleep_calls (flat_map (launch_events pfs sel line argv) l) = [] /\
  kill_calls (flat_map (launch_events pfs sel line argv) l) = [] /\
  clock_calls (flat_map (launch_events pfs sel line argv) l) = [] /\
  warn_calls (flat_map (launch_events pfs sel line argv) l) = [].
Proof.
  induction l as [|x l (IHf & IHs & IHk & IHc & IHw)]; [now repeat split|].
  unfold fork_calls, sleep_calls, kill_calls, clock_calls, warn_calls in *.
  cbn [flat_map]. rewrite !filter_app, IHf, IHs, IHk, IHc, IHw.
  unfold launch_events. now destruct (sel x).
Qed.

Ltac account_step x t s :=
  cbn [for_each]; unfold bind; rewrite guarded_step;
  destruct (sel x) eqn:Hsel;
  [ destruct (_ && negb (t <? 0)) eqn:Harmed; cbv zeta;
    [ destruct (waitpid_ret w (n_wait s) =? t) eqn:Hreap | ] | ];
  match goal with
  | |- context [for_each ?b ?l ?t1 ?s1] =>
      let E := fresh "E" in
      destruct (for_each b l t1 s1) as [[?r ?s2] ?tr2] eqn:E
  end.

(** A loop neither forks, sleeps, kills nor reads the clock, and of the
    state it only moves the count of [waitpid(-1)] answers, by one per
    call. *)
Lemma loop_frame pfs l t s r s' tr :
  for_each (guarded_launch w pfs sel line argv) l t s = (r, s', tr) ->
  (fork_calls tr = [] /\ sleep_calls tr = [] /\ kill_calls tr = [] /\ clock_calls tr = []) /\
  (pfs_timeout s' = pfs_timeout s /\ n_fork s' = n_fork s /\ n_clock s' = n_clock s /\
   n_wait s' = (n_wait s + List.length (wait_any_calls tr))%nat).
Proof.
  revert t s r s' tr; induction l as [|x l IH]; intros t s r s' tr.
  { cbn. intros H; inversion H; subst. cbn. repeat split; lia. }
  account_step x t s; intros H; inversion H; subst; apply IH in E;
    destruct E as ((Hf & Hs & Hk & Hc) & (Hp & Hn & Hcl & Hw));
    unfold fork_calls, sleep_calls, kill_calls, clock_calls, wait_any_calls in *;
    cbn in *; repeat split; try assumption; lia.
Qed.

(** It never waits more often than it launches. *)
Lemma loop_waits_le pfs l t s r s' tr :
  for_each (guarded_launch w pfs sel line argv) l t s = (r, s', tr) ->
  (List.length (wait_any_calls tr) <= List.length (launches tr))%nat.
Proof.
  revert t s r s' tr; induction l as [|x l IH]; intros t s r s' tr.
  { cbn. intros H; inversion H; subst. cbn. lia. }
  account_step x t s; intros H; inversion H; subst; apply IH in E;
    unfold wait_any_calls, launches in *; cbn in *; lia.
Qed.

(** An armed loop: until the timer is reaped every launch is followed by
    one wait and nothing is logged as a warning; the reap is logged once. *)
Lemma loop_armed l t s t' s' tr :
  0 <= t ->
  for_each (guarded_launch w true sel line argv) l t s = (Next t', s', tr) ->
  (t' = t /\ ~ In (Waitpid_any t) tr /\ warn_calls tr = [] /\
   List.length (wait_any_calls tr) = List.length (launches tr)) \/
  (t' = -1 /\ In (Waitpid_any t) tr /\ warn_calls tr = [timeout_warning]).
Proof.
  intros Ht. revert s t' s' tr; induction l as [|x l IH]; intros s t' s' tr.
  { cbn. intros H; inversion H; subst. left. repeat split. intros []. }
  account_step x t s; intros H; inversion H; subst; clear H.
  - right. rewrite loop_quiet in E by (right; lia). inversion E; subst.
    apply Z.eqb_eq in Hreap. rewrite Hreap. split; [reflexivity|]. split.
    + cbn. tauto.
    + destruct (launch_events_plain true l) as (_ & _ & _ & _ & Hw).
      unfold warn_calls in *. cbn. now rewrite Hw.
  - apply IH in E. apply Z.eqb_neq in Hreap.
    destruct E as [(-> & Hn & Hw & Hl)|(-> & Hi & Hw)]; [left|right].
    + repeat split.
      * cbn. intros [H|[H|[H|H]]]; try discriminate; [congruence|tauto].
      * exact Hw.
      * unfold wait_any_calls, launches in *. cbn. now rewrite Hl.
    + repeat split; [cbn; tauto | exact Hw].
  - apply Z.ltb_ge in Ht. rewrite Ht in Harmed. discriminate.
  - cbn. eapply IH; exact E.
Qed.

Lemma loop_books l t s t' s' tr :
  for_each (guarded_launch w true sel line argv) l t s = (Next t', s', tr) ->
  loop_account t s t' s' tr.
Proof.
  intros H. destruct (loop_frame _ _ _ _ _ _ _ H) as [Hq Hs].
  split; [exact Hq|]. split; [exact Hs|].
  split; [exact (loop_waits_le _ _ _ _ _ _ _ H)|]. split.
  - intros Hneg. rewrite loop_quiet in H by (right; exact Hneg). inversion H; subst.
    split; [reflexivity|]. split; [apply launch_events_quiet|].
    apply launch_events_plain.
  - intros Hpos. exact (loop_armed _ _ _ _ _ _ Hpos H).
Qed.
End Account.

(** ** The anatomy of a phase

    Whatever the world, a phase runs in one of four ways: outside the
    supervisor, as the caller of the subtree, as the timer, or as the
    subtree. *)
Lemma phase_anatomy cfg w stage ph s :
  let now := monotonic w (n_clock s) in
  let pid := xfork_ret w (n_fork s) in
  let timer := xfork_ret w (S (n_fork s)) in
  let D := phase_deadline cfg w ph s in
  exists r s' tr,
    run_phase cfg w stage ph s = (r, s', tr) /\
    ((supervised cfg w stage ph s = false /\ (r = Next tt \/ r = Return_) /\
      (pfs_timeout s' = pfs_timeout s /\ n_fork s' = n_fork s /\ n_wait s' = n_wait s) /\
      (is_pfs stage = false -> s' = s /\ clock_calls tr = []) /\
      (fork_calls tr = [] /\ sleep_calls tr = [] /\ kill_calls tr = [] /\
       warn_calls tr = [] /\ wait_any_calls tr = []) /\
      launches tr = map (script_launch cfg w fork_dont_care) (phase_scripts cfg w stage ph)) \/
     (supervised cfg w stage ph s = true /\ pid <> 0 /\ r = Return_ /\
      s' = mk_proc D (S (n_fork s)) (n_wait s) (S (n_clock s)) /\
      exists line,
        tr = [Log_info line; Clock_gettime now; Xfork pid] ++
             (if pid <? 0 then [] else [Waitpid pid])) \/
     (supervised cfg w stage ph s = true /\ pid = 0 /\ timer = 0 /\ r = Exit 0 /\
      s' = mk_proc D (S (S (n_fork s))) (n_wait s) (S (n_clock s)) /\
      exists line,
        tr = [Log_info line; Clock_gettime now; Xfork 0; Xfork 0; Clock_nanosleep D]) \/
     (supervised cfg w stage ph s = true /\ pid = 0 /\ timer <> 0 /\ r = Exit 0 /\
      exists line t' ltr,
        tr = [Log_info line; Clock_gettime now; Xfork 0; Xfork timer] ++ ltr ++
             (if t' >? 0 then [Kill t' SIGKILL] else []) /\
        loop_account timer (mk_proc D (S (S (n_fork s))) (n_wait s) (S (n_clock s)))
          t' s' ltr /\
        launches ltr = map (script_launch cfg w xfork) (phase_scripts cfg w stage ph))).
Proof.
  intros now pid timer D. unfold supervised.
  destruct ph as [|modules]; cbn [run_phase phase_scripts phase_deadline] in *.
  - (* directory phase *)
    destruct (dir_entries w (stage_dir cfg stage)) as [es|] eqn:Hd.
    2:{ rewrite common_missing_dir by exact Hd. eexists _, _, _. split; [reflexivity|].
        left. rewrite andb_false_r. repeat split; auto. }
    rewrite andb_true_r.
    destruct (is_pfs stage) eqn:Hp.
    2:{ rewrite (common_untimed _ _ _ _ es Hd Hp). eexists _, _, _. split; [reflexivity|].
        left.
        pose proof (launch_events_plain (runnable w (stage_dir cfg stage)) (common_line stage)
                      (common_argv cfg w (stage_dir cfg stage)) false es)
          as (Hf & Hs & Hk & Hc & Hw).
        repeat split; auto.
        - apply (launch_events_quiet _ _ _ false).
        - change (launches (?e :: ?l)) with (launches l).
          rewrite (quiet_launches w). apply common_launch_list. }
    destruct (Z.eq_dec pid 0) as [Hf|Hf].
    2:{ rewrite (common_caller _ _ _ _ es Hd Hp Hf). eexists _, _, _. split; [reflexivity|].
        right; left. repeat split; auto. now eexists. }
    destruct (Z.eq_dec timer 0) as [Ht|Ht].
    { rewrite (common_timer _ _ _ _ es Hd Hp Hf Ht). eexists _, _, _. split; [reflexivity|].
      right; right; left. repeat split; auto. now eexists. }
    destruct (loop_next w (runnable w (stage_dir cfg stage)) (common_line stage)
                (common_argv cfg w (stage_dir cfg stage)) true es timer
                (mk_proc D (S (S (n_fork s))) (n_wait s) (S (n_clock s))))
      as (t' & s' & ltr & Hl).
    rewrite (common_subtree _ _ _ _ es t' s' ltr Hd Hp Hf Ht Hl).
    eexists _, _, _. split; [reflexivity|].
    right; right; right. repeat split; auto.
    eexists _, t', ltr. split; [reflexivity|]. split.
    + exact (loop_books _ _ _ _ _ _ _ _ _ _ Hl).
    + rewrite (loop_launches _ _ _ _ _ _ _ _ _ _ _ Hl). apply common_launch_list.
  - (* module phase *)
    destruct modules as [|m ms].
    { eexists _, _, _. split; [reflexivity|]. left. rewrite andb_false_r.
      repeat split; auto. }
    assert (Hne : m :: ms <> []) by congruence.
    set (modules := m :: ms) in *.
    destruct (is_pfs stage) eqn:Hp; cbn [andb].
    2:{ rewrite (module_untimed cfg w stage modules s Hp). cbv iota.
        eexists _, _, _. split; [reflexivity|]. left.
        pose proof (launch_events_plain (module_present cfg w stage) (module_line stage)
                      (module_argv cfg w stage) false modules)
          as (Hf & Hs & Hk & Hc & Hw).
        repeat split; auto.
        - apply (launch_events_quiet _ _ _ false).
        - change (launches (?e :: ?l)) with (launches l).
          rewrite (quiet_launches w). apply module_launch_list. }
    destruct (timespec_gt (monotonic w (n_clock s)) (pfs_timeout s)) eqn:Hgt; cbn [negb].
    { rewrite (module_late cfg w stage modules s Hne Hp Hgt).
      eexists _, _, _. split; [reflexivity|]. left.
      pose proof (launch_events_plain (module_present cfg w stage) (module_line stage)
                    (module_argv cfg w stage) false modules)
        as (Hf & Hs & Hk & Hc & Hw).
      repeat split; auto; try congruence.
      - apply (launch_events_quiet _ _ _ false).
      - change (launches (?e :: ?e' :: ?l)) with (launches l).
        rewrite (quiet_launches w). apply module_launch_list. }
    destruct (Z.eq_dec pid 0) as [Hf|Hf].
    2:{ rewrite (module_caller cfg w stage modules s Hne Hp Hgt Hf).
        eexists _, _, _. split; [reflexivity|].
        right; left. repeat split; auto. now eexists. }
    destruct (Z.eq_dec timer 0) as [Ht|Ht].
    { rewrite (module_timer cfg w stage modules s Hne Hp Hgt Hf Ht).
      eexists _, _, _. split; [reflexivity|].
      right; right; left. repeat split; auto. now eexists. }
    destruct (loop_next w (module_present cfg w stage) (module_line stage)
                (module_argv cfg w stage) true modules timer
                (mk_proc (pfs_timeout s) (S (S (n_fork s))) (n_wait s) (S (n_clock s))))
      as (t' & s' & ltr & Hl).
    rewrite (module_subtree cfg w stage modules s t' s' ltr Hne Hp Hgt Hf Ht Hl).
    eexists _, _, _. split; [reflexivity|].
    right; right; right. repeat split; auto.
    eexists _, t', ltr. split; [reflexivity|]. split.
    + exact (loop_books _ _ _ _ _ _ _ _ _ _ Hl).
    + rewrite (loop_launches _ _ _ _ _ _ _ _ _ _ _ Hl). apply module_launch_list.
Qed.

Lemma in_filter_nil {A : Type} (f : A -> bool) (l : list A) (x : A) :
  filter f l = [] -> In x l -> f x = false.
Proof.
  intros Hnil Hin. destruct (f x) eqn:E; [|reflexivity].
  assert (In x (filter f l)) as H by (apply filter_In; now split).
  rewrite Hnil in H. destruct H.
Qed.

Lemma no_wait_not_in tr pid : wait_any_calls tr = [] -> ~ In (Waitpid_any pid) tr.
Proof. intros H Hin. now apply (in_filter_nil _ _ _ H) in Hin. Qed.

Lemma no_kill_not_in tr p sig : kill_calls tr = [] -> ~ In (Kill p sig) tr.
Proof. intros H Hin. now apply (in_filter_nil _ _ _ H) in Hin. Qed.

(** A sum inside the range of [time_t] is stored as it is. *)
Lemma time_t_wrap_in_range z :
  time_t_min <= z <= time_t_max -> time_t_wrap z = z.
Proof.
  unfold time_t_wrap, time_t_min, time_t_max. intros H.
  rewrite Z.mod_small by lia. lia.
Qed.

(** Whatever the sum, what is stored is in the range. *)
Lemma time_t_wrap_range z : time_t_min <= time_t_wrap z <= time_t_max.
Proof.
  unfold time_t_wrap, time_t_min, time_t_max.
  pose proof (Z.mod_pos_bound (z - -9223372036854775808) 18446744073709551616) as H.
  lia.
Qed.

(** ** Further properties of the two phases *)

(** X1.  A stage other than post-fs-data: either phase gives control back
    to its caller with the process state exactly as it found it; it forks
    nothing itself, reads no clock, waits for nothing, kills nothing, and
    launches all its scripts through [fork_dont_care]. *)
Theorem untimed_stage_is_transparent cfg w stage ph s :
  is_pfs stage = false ->
  exists tr,
    call (run_phase cfg w stage ph) s = (Returned, s, tr) /\
    fork_calls tr = [] /\ clock_calls tr = [] /\ wait_any_calls tr = [] /\
    kill_calls tr = [] /\
    launches tr = map (script_launch cfg w fork_dont_care) (phase_scripts cfg w stage ph).
Proof.
  intros Hp.
  destruct (phase_anatomy cfg w stage ph s) as (r & s' & tr & E & H).
  destruct H as [(_ & Hr & _ & Hs & (Hf & _ & Hk & _ & Hw) & Hl)|
                 [(Hs & _)|[(Hs & _)|(Hs & _)]]];
    try (apply supervised_pfs in Hs; congruence).
  destruct (Hs Hp) as [-> Hc]. exists tr. unfold call. rewrite E.
  destruct Hr as [->| ->]; repeat split; assumption.
Qed.

(** X2.  [exec_module_scripts] never writes the deadline: whatever the
    stage, the module list, the world and the side of the forks the
    process ends up on, [pfs_timeout] is afterwards what it was before. *)
Theorem module_phase_keeps_deadline cfg w stage modules s :
  pfs_timeout (snd (fst (exec_module_scripts cfg w stage modules s))) = pfs_timeout s.
Proof.
  destruct (phase_anatomy cfg w stage (Module_phase modules) s) as (r & s' & tr & E & H).
  cbn [run_phase phase_deadline] in E, H. rewrite E. cbn [fst snd].
  destruct H as [(_ & _ & (Hd & _) & _)|
                 [(_ & _ & _ & -> & _)|[(_ & _ & _ & _ & -> & _)|
                  (_ & _ & _ & _ & line & t' & ltr & _ & Hacc & _)]]];
    try reflexivity; try assumption.
  destruct Hacc as (_ & (Hd & _) & _). exact Hd.
Qed.

(** X3.  The directory phase of the timed stage, with its directory
    present: it reads the clock once, before any fork, and in every
    process that comes out of it (caller, timer, subtree) the stored
    deadline has the nanoseconds of that reading and, as seconds, the
    [time_t] that the addition of [POST_FS_DATA_SCRIPT_MAX_TIME] to the
    reading's seconds leaves: the sum itself whenever the sum is in the
    range of [time_t], the wrapped sum otherwise. *)
Theorem directory_phase_sets_deadline cfg w stage s es :
  is_pfs stage = true ->
  dir_entries w (stage_dir cfg stage) = Some es ->
  let now := monotonic w (n_clock s) in
  let run := exec_common_scripts cfg w stage s in
  pfs_timeout (snd (fst run)) =
    mk_timespec (time_t_wrap (tv_sec now + POST_FS_DATA_SCRIPT_MAX_TIME cfg)) (tv_nsec now) /\
  (time_t_min <= tv_sec now + POST_FS_DATA_SCRIPT_MAX_TIME cfg <= time_t_max ->
   pfs_timeout (snd (fst run)) =
     mk_timespec (tv_sec now + POST_FS_DATA_SCRIPT_MAX_TIME cfg) (tv_nsec now)) /\
  clock_calls (snd run) = [Clock_gettime now] /\
  exists line pid rest, snd run = Log_info line :: Clock_gettime now :: Xfork pid :: rest.
Proof.
  intros Hp Hd now run. subst run.
  enough (pfs_timeout (snd (fst (exec_common_scripts cfg w stage s))) =
            mk_timespec (time_t_wrap (tv_sec now + POST_FS_DATA_SCRIPT_MAX_TIME cfg))
                        (tv_nsec now) /\
          clock_calls (snd (exec_common_scripts cfg w stage s)) = [Clock_gettime now] /\
          exists line pid rest,
            snd (exec_common_scripts cfg w stage s) =
            Log_info line :: Clock_gettime now :: Xfork pid :: rest) as (H1 & H2 & H3).
  { split; [exact H1|]. split; [|split; assumption].
    intros Hr. rewrite H1. now rewrite time_t_wrap_in_range. }
  assert (Hs : supervised cfg w stage Directory_phase s = true).
  { unfold supervised. now rewrite Hp, Hd. }
  destruct (phase_anatomy cfg w stage Directory_phase s) as (r & s' & tr & E & H).
  cbn [run_phase phase_deadline] in E, H. rewrite E. cbn [fst snd]. fold now in H.
  destruct H as [(Hu & _)|
                 [(_ & _ & _ & -> & line & ->)|[(_ & _ & _ & _ & -> & line & ->)|
                  (_ & _ & _ & _ & line & t' & ltr & -> & Hacc & _)]]];
    [congruence| | |].
  - split; [reflexivity|]. split; [|now eexists _, _, _].
    now destruct (xfork_ret w (n_fork s) <? 0).
  - split; [reflexivity|]. split; [reflexivity|now eexists _, _, _].
  - destruct Hacc as ((_ & _ & _ & Hc) & (Hdl & _) & _).
    split; [exact Hdl|]. split; [|now eexists _, _, _].
    unfold clock_calls in *. cbn. rewrite filter_app, Hc. now destruct (t' >? 0).
Qed.

(** X4.  The caller of a supervised phase (the first [xfork] gave it a
    child): it waits for that child with [waitpid(pid, ..)] and returns;
    it launches no script, makes no second fork and no
    wait-for-any-child call. *)
Theorem caller_waits_for_subtree_only cfg w stage ph s :
  supervised cfg w stage ph s = true ->
  0 < xfork_ret w (n_fork s) ->
  exists line s',
    run_phase cfg w stage ph s =
    (Return_, s',
     [Log_info line; Clock_gettime (monotonic w (n_clock s));
      Xfork (xfork_ret w (n_fork s)); Waitpid (xfork_ret w (n_fork s))]).
Proof.
  intros Hs Hf.
  destruct (phase_caller _ _ _ _ _ Hs) as (line & s' & E); [lia|].
  exists line, s'. rewrite E.
  replace (xfork_ret w (n_fork s) <? 0) with false by (symmetry; apply Z.ltb_ge; lia).
  reflexivity.
Qed.

(** X5.  A phase ends the process exactly when the process is a child of
    the subtree fork of a supervised phase, and then with [exit(0)]; in
    every other case control goes back to the caller.  So the daemon
    always gets control back, and a forked child never runs on into the
    daemon's code. *)
Theorem exit_iff_forked_child cfg w stage ph s :
  let r := fst (fst (run_phase cfg w stage ph s)) in
  (supervised cfg w stage ph s = true /\ xfork_ret w (n_fork s) = 0 /\ r = Exit 0) \/
  ((supervised cfg w stage ph s = false \/ xfork_ret w (n_fork s) <> 0) /\
   (r = Next tt \/ r = Return_)).
Proof.
  intros r. subst r.
  destruct (phase_anatomy cfg w stage ph s) as (r & s' & tr & E & H). rewrite E. cbn [fst].
  destruct H as [(Hu & Hr & _)|
                 [(Hs & Hf & -> & _)|[(Hs & Hf & _ & -> & _)|(Hs & Hf & _ & -> & _)]]].
  - right. split; [now left|exact Hr].
  - right. split; [now right|now right].
  - left. auto.
  - left. auto.
Qed.

(** X6.  The only signal a phase ever sends is one [SIGKILL], as its last
    action, to the pid the timer fork returned, and only when that pid is
    positive and no [waitpid(-1)] has handed it back: a reaped (and so
    possibly recycled) pid is never signalled, and no script is. *)
Theorem kill_only_unreaped_timer cfg w stage ph s p sig :
  let tr := snd (run_phase cfg w stage ph s) in
  In (Kill p sig) tr ->
  sig = SIGKILL /\ p = xfork_ret w (S (n_fork s)) /\ 0 < p /\
  ~ In (Waitpid_any p) tr /\
  kill_calls tr = [Kill p sig] /\
  exists pre, tr = pre ++ [Kill p sig].
Proof.
  intros tr0. subst tr0.
  destruct (phase_anatomy cfg w stage ph s) as (r & s' & tr & E & H). rewrite E. cbn [snd].
  destruct H as [(_ & _ & _ & _ & (_ & _ & Hk & _) & _)|
                 [(_ & _ & _ & _ & line & ->)|[(_ & _ & _ & _ & _ & line & ->)|
                  (_ & _ & Ht & _ & line & t' & ltr & -> & Hacc & _)]]]; intros Hin.
  - now apply no_kill_not_in in Hin.
  - exfalso. destruct (xfork_ret w (n_fork s) <? 0); cbn in Hin;
      repeat (destruct Hin as [Hin|Hin]; [discriminate Hin|]); exact Hin.
  - exfalso. cbn in Hin.
    repeat (destruct Hin as [Hin|Hin]; [discriminate Hin|]). exact Hin.
  - destruct Hacc as ((_ & _ & Hk & _) & _ & _ & Hneg & Hpos).
    cbn in Hin. repeat (destruct Hin as [Hin|Hin]; [discriminate Hin|]).
    apply in_app_or in Hin. destruct Hin as [Hin|Hin];
      [now apply no_kill_not_in in Hin|].
    destruct (t' >? 0) eqn:Hgt; [|destruct Hin].
    destruct Hin as [Hin|[]]. inversion Hin; subst p sig. clear Hin.
    rewrite Z.gtb_ltb in Hgt. apply Z.ltb_lt in Hgt.
    destruct (Z.lt_ge_cases (xfork_ret w (S (n_fork s))) 0) as [Hn|Hp].
    { destruct (Hneg Hn) as [-> _]. lia. }
    destruct (Hpos Hp) as [(-> & Hnr & _)|(-> & _)]; [|lia].
    split; [reflexivity|]. split; [reflexivity|]. split; [exact Hgt|]. split; [|split].
    + cbn. intros [H|[H|[H|[H|H]]]]; try discriminate H.
      apply in_app_or in H. destruct H as [H|[H|[]]]; [now apply Hnr|discriminate H].
    + unfold kill_calls in *. cbn. now rewrite filter_app, Hk.
    + exists ([Log_info line; Clock_gettime (monotonic w (n_clock s)); Xfork 0;
               Xfork (xfork_ret w (S (n_fork s)))] ++ ltr).
      now rewrite <- app_assoc.
Qed.

(** X7.  The timeout warning is logged exactly when the timer is reaped,
    and then once: a phase whose trace has a [waitpid(-1)] returning the
    timer's pid logs this one warning and no other; any other run of a
    phase logs no warning at all. *)
Theorem timeout_warning_once cfg w stage ph s :
  let timer := xfork_ret w (S (n_fork s)) in
  let tr := snd (run_phase cfg w stage ph s) in
  (In (Waitpid_any timer) tr -> warn_calls tr = [timeout_warning]) /\
  (~ In (Waitpid_any timer) tr -> warn_calls tr = []).
Proof.
  intros timer tr0. subst tr0.
  destruct (phase_anatomy cfg w stage ph s) as (r & s' & tr & E & H). rewrite E. cbn [snd].
  destruct H as [(_ & _ & _ & _ & (_ & _ & _ & Hw & Hq) & _)|
                 [(_ & _ & _ & _ & line & ->)|[(_ & _ & _ & _ & _ & line & ->)|
                  (_ & _ & Ht & _ & line & t' & ltr & -> & Hacc & _)]]].
  - split; [intros Hin; now apply no_wait_not_in in Hin | intros _; exact Hw].
  - split.
    + intros Hin. exfalso. destruct (xfork_ret w (n_fork s) <? 0); cbn in Hin;
        repeat (destruct Hin as [Hin|Hin]; [discriminate Hin|]); exact Hin.
    + intros _. now destruct (xfork_ret w (n_fork s) <? 0).
  - split; [|reflexivity].
    intros Hin. exfalso. cbn in Hin.
    repeat (destruct Hin as [Hin|Hin]; [discriminate Hin|]). exact Hin.
  - fold timer in Hacc, Ht |- *.
    destruct Hacc as (_ & _ & _ & Hneg & Hpos).
    assert (Hw : warn_calls ([Log_info line; Clock_gettime (monotonic w (n_clock s)); Xfork 0;
                              Xfork timer] ++ ltr ++
                             (if t' >? 0 then [Kill t' SIGKILL] else [])) = warn_calls ltr).
    { unfold warn_calls. cbn. rewrite filter_app.
      destruct (t' >? 0); cbn; now rewrite app_nil_r. }
    assert (Hi : In (Waitpid_any timer)
                   ([Log_info line; Clock_gettime (monotonic w (n_clock s)); Xfork 0;
                     Xfork timer] ++ ltr ++
                    (if t' >? 0 then [Kill t' SIGKILL] else [])) <->
                 In (Waitpid_any timer) ltr).
    { cbn. rewrite in_app_iff. split.
      - intros [H|[H|[H|[H|[H|H]]]]]; try discriminate H; [exact H|].
        destruct (t' >? 0); [destruct H as [H|[]]; discriminate H | destruct H].
      - intros H. do 4 right. now left. }
    rewrite Hw, Hi.
    destruct (Z.lt_ge_cases timer 0) as [Hn|Hp].
    + destruct (Hneg Hn) as (_ & Hq & Hnw).
      split; [intros Hin; now apply no_wait_not_in in Hin | intros _; exact Hnw].
    + destruct (Hpos Hp) as [(_ & Hnr & Hnw & _)|(_ & Hr & Hyw)].
      * split; [intros Hin; now apply Hnr in Hin | intros _; exact Hnw].
      * split; [intros _; exact Hyw | intros Hn; now apply Hn in Hr].
Qed.

(** X8.  A phase never makes more wait-for-any-child calls than it has
    launched scripts; and the subtree of a supervised phase whose timer
    (pid positive) is never reaped makes exactly one such call per
    launch. *)
Theorem waits_bounded_by_launches cfg w stage ph s :
  let timer := xfork_ret w (S (n_fork s)) in
  let tr := snd (run_phase cfg w stage ph s) in
  (List.length (wait_any_calls tr) <= List.length (launches tr))%nat /\
  (supervised cfg w stage ph s = true -> xfork_ret w (n_fork s) = 0 -> 0 < timer ->
   ~ In (Waitpid_any timer) tr ->
   List.length (wait_any_calls tr) = List.length (phase_scripts cfg w stage ph)).
Proof.
  intros timer tr0. subst tr0.
  destruct (phase_anatomy cfg w stage ph s) as (r & s' & tr & E & H). rewrite E. cbn [snd].
  destruct H as [(Hu & _ & _ & _ & (_ & _ & _ & _ & Hq) & _)|
                 [(_ & Hf & _ & _ & line & ->)|[(_ & _ & Ht & _ & _ & line & ->)|
                  (_ & _ & Ht & _ & line & t' & ltr & -> & Hacc & Hl)]]].
  - split; [rewrite Hq; cbn; lia | congruence].
  - split; [|congruence]. destruct (xfork_ret w (n_fork s) <? 0); cbn; lia.
  - split; [cbn; lia|]. intros _ _ Hpos. fold timer in Ht. lia.
  - fold timer in Hacc, Ht, Hl |- *.
    destruct Hacc as (_ & _ & Hle & _ & Hpos).
    assert (Hw : wait_any_calls ([Log_info line; Clock_gettime (monotonic w (n_clock s));
                                  Xfork 0; Xfork timer] ++ ltr ++
                                 (if t' >? 0 then [Kill t' SIGKILL] else [])) =
                 wait_any_calls ltr).
    { unfold wait_any_calls. cbn. rewrite filter_app.
      destruct (t' >? 0); cbn; now rewrite app_nil_r. }
    assert (Hla : launches ([Log_info line; Clock_gettime (monotonic w (n_clock s));
                             Xfork 0; Xfork timer] ++ ltr ++
                            (if t' >? 0 then [Kill t' SIGKILL] else [])) =
                  launches ltr).
    { rewrite !launches_app. cbn. destruct (t' >? 0); cbn; now rewrite app_nil_r. }
    rewrite Hw, Hla. split; [exact Hle|].
    intros _ _ Hgt Hn.
    assert (Hp0 : 0 <= timer) by lia.
    destruct (Hpos Hp0) as [(_ & _ & _ & Heq)|(_ & Hr & _)].
    + now rewrite Heq, Hl, length_map.
    + exfalso. apply Hn. cbn. do 4 right. apply in_or_app. now left.
Qed.

(** X9.  The timer process of a supervised phase does one thing: it
    sleeps until the deadline of the phase and exits with status 0.  For
    the directory phase that deadline is the value just stored in
    [pfs_timeout] (the [time_t] sum, wrapped if it leaves the range); for
    the module phase it is the stored one, left by the directory phase,
    not a new one. *)
Theorem timer_sleeps_until_phase_deadline cfg w stage ph s :
  supervised cfg w stage ph s = true ->
  xfork_ret w (n_fork s) = 0 -> xfork_ret w (S (n_fork s)) = 0 ->
  exists line s',
    run_phase cfg w stage ph s =
    (Exit 0, s',
     [Log_info line; Clock_gettime (monotonic w (n_clock s)); Xfork 0; Xfork 0;
      Clock_nanosleep (phase_deadline cfg w ph s)]).
Proof.
  intros Hs Hf Ht.
  destruct (phase_anatomy cfg w stage ph s) as (r & s' & tr & E & H). rewrite E.
  destruct H as [(Hu & _)|
                 [(_ & Hf' & _)|[(_ & _ & _ & -> & _ & line & ->)|(_ & _ & Ht' & _)]]];
    try congruence.
  now exists line, s'.
Qed.

Lemma phase_fork_calls cfg w stage ph s :
  fork_calls (snd (run_phase cfg w stage ph s)) =
  if supervised cfg w stage ph s then
    if xfork_ret w (n_fork s) =? 0 then [Xfork 0; Xfork (xfork_ret w (S (n_fork s)))]
    else [Xfork (xfork_ret w (n_fork s))]
  else [].
Proof.
  destruct (phase_anatomy cfg w stage ph s) as (r & s' & tr & E & H). rewrite E. cbn [snd].
  destruct H as [(-> & _ & _ & _ & (Hf & _) & _)|
                 [(-> & Hf & _ & _ & line & ->)|[(-> & -> & -> & _ & _ & line & ->)|
                  (-> & -> & Ht & _ & line & t' & ltr & -> & Hacc & _)]]].
  - exact Hf.
  - apply Z.eqb_neq in Hf. rewrite Hf. now destruct (xfork_ret w (n_fork s) <? 0).
  - reflexivity.
  - destruct Hacc as ((Hf & _) & _). unfold fork_calls in *. cbn.
    rewrite filter_app, Hf. now destruct (t' >? 0).
Qed.

(** X10.  The forks a phase makes itself: none outside the supervisor;
    one in the caller of a supervised phase; two in its child, the second
    being the timer fork.  So a phase invocation creates at most one
    timer. *)
Theorem own_forks_of_a_phase cfg w stage ph s :
  fork_calls (snd (run_phase cfg w stage ph s)) =
  if supervised cfg w stage ph s then
    if xfork_ret w (n_fork s) =? 0 then [Xfork 0; Xfork (xfork_ret w (S (n_fork s)))]
    else [Xfork (xfork_ret w (n_fork s))]
  else [].
Proof. apply phase_fork_calls. Qed.

(** X11.  The module phase lives on the budget of the directory phase.
    When the daemon has been through the directory phase of the timed
    stage (as the caller of the subtree) with clock reading [now1], the
    module phase that follows, reading [now2], forks a subtree of its own
    exactly when there is a module and [now2] is not more than
    [POST_FS_DATA_SCRIPT_MAX_TIME] seconds after [now1]; the instant
    [now1 + budget] itself still counts as in time.  This is for readings
    whose seconds plus the budget are in the range of [time_t], so that
    the stored deadline is the sum. *)
Theorem module_phase_inherits_budget cfg w modules s es :
  dir_entries w (stage_dir cfg "post-fs-data") = Some es ->
  xfork_ret w (n_fork s) <> 0 ->
  let now1 := monotonic w (n_clock s) in
  let now2 := monotonic w (S (n_clock s)) in
  0 <= tv_nsec now1 < 1000000000 ->
  0 <= tv_nsec now2 < 1000000000 ->
  time_t_min <= tv_sec now1 + POST_FS_DATA_SCRIPT_MAX_TIME cfg <= time_t_max ->
  exists s1 tr1,
    call (exec_common_scripts cfg w "post-fs-data") s = (Returned, s1, tr1) /\
    (fork_calls (snd (exec_module_scripts cfg w "post-fs-data" modules s1)) <> [] <->
     modules <> [] /\
     tv_sec now2 * 1000000000 + tv_nsec now2 <=
     (tv_sec now1 + POST_FS_DATA_SCRIPT_MAX_TIME cfg) * 1000000000 + tv_nsec now1).
Proof.
  intros Hd Hf now1 now2 Hn1 Hn2 Hrange.
  pose (D := mk_timespec (time_t_wrap (tv_sec now1 + POST_FS_DATA_SCRIPT_MAX_TIME cfg))
                         (tv_nsec now1)).
  pose (s1 := mk_proc D (S (n_fork s)) (n_wait s) (S (n_clock s))).
  eexists s1, _. split.
  { unfold call. rewrite (common_caller cfg w "post-fs-data" s es Hd eq_refl Hf). reflexivity. }
  pose proof (phase_fork_calls cfg w "post-fs-data" (Module_phase modules) s1) as Hfc.
  cbn [run_phase] in Hfc. rewrite Hfc.
  assert (Hs : supervised cfg w "post-fs-data" (Module_phase modules) s1 =
               match modules with [] => false | _ :: _ => negb (timespec_gt now2 D) end)
    by reflexivity.
  rewrite Hs.
  assert (Hgt : timespec_gt now2 D = true <->
                tv_sec D * 1000000000 + tv_nsec D < tv_sec now2 * 1000000000 + tv_nsec now2)
    by (apply timespec_gt_instant; assumption).
  cbn [D tv_sec tv_nsec] in Hgt. rewrite time_t_wrap_in_range in Hgt by exact Hrange.
  destruct modules as [|m ms].
  - split; [intros H; now contradict H | intros [H _]; now contradict H].
  - destruct (timespec_gt now2 D); cbn [negb].
    + split; [intros H; now contradict H|]. intros [_ H].
      assert (true = true) as Ht by reflexivity. apply Hgt in Ht. lia.
    + split.
      * intros _. split; [discriminate|].
        destruct (Z.le_gt_cases (tv_sec now2 * 1000000000 + tv_nsec now2)
                    ((tv_sec now1 + POST_FS_DATA_SCRIPT_MAX_TIME cfg) * 1000000000 +
                     tv_nsec now1)) as [H|H]; [exact H|].
        apply Hgt in H. discriminate H.
      * intros _. now destruct (xfork_ret w (n_fork s1) =? 0).
Qed.

(** X12.  [operator>] on [timespec] is a strict total order on the pairs
    (seconds, nanoseconds): nothing is greater than itself, two values are
    never greater than each other, the relation is transitive, and two
    values neither of which is greater are equal field by field. *)
Theorem timespec_gt_strict_total_order :
  (forall a, timespec_gt a a = false) /\
  (forall a b, timespec_gt a b = true -> timespec_gt b a = false) /\
  (forall a b c, timespec_gt a b = true -> timespec_gt b c = true -> timespec_gt a c = true) /\
  (forall a b, timespec_gt a b = false -> timespec_gt b a = false -> a = b).
Proof.
  repeat split.
  - intros a. destruct (timespec_gt a a) eqn:E; [|reflexivity].
    apply timespec_gt_lex in E. lia.
  - intros a b H. destruct (timespec_gt b a) eqn:E; [|reflexivity].
    apply timespec_gt_lex in H, E. lia.
  - intros a b c H1 H2. apply timespec_gt_lex in H1, H2. apply timespec_gt_lex. lia.
  - intros [sa na] [sb nb] H1 H2.
    assert (N1 : ~ (tv_sec (mk_timespec sb nb) < tv_sec (mk_timespec sa na) \/
                    (tv_sec (mk_timespec sa na) = tv_sec (mk_timespec sb nb) /\
                     tv_nsec (mk_timespec sb nb) < tv_nsec (mk_timespec sa na)))).
    { intros H. apply timespec_gt_lex in H. congruence. }
    assert (N2 : ~ (tv_sec (mk_timespec sa na) < tv_sec (mk_timespec sb nb) \/
                    (tv_sec (mk_timespec sb nb) = tv_sec (mk_timespec sa na) /\
                     tv_nsec (mk_timespec sa na) < tv_nsec (mk_timespec sb nb)))).
    { intros H. apply timespec_gt_lex in H. congruence. }
    cbn in N1, N2. f_equal; lia.
Qed.

(** ** The environment hook *)

Lemma string_length_append (a b : string) :
  String.length (a ++ b)%string = (String.length a + String.length b)%nat.
Proof. induction a as [|c a IH]; cbn; [reflexivity | now rewrite IH]. Qed.

Lemma getenv_setenv_same env name value :
  getenv (setenv env name value) name = Some value.
Proof. unfold getenv, setenv. now rewrite String.eqb_refl. Qed.

Lemma getenv_setenv_other env name value n :
  n <> name -> getenv (setenv env name value) n = getenv env n.
Proof. intros H. unfold getenv, setenv. apply String.eqb_neq in H. now rewrite H. Qed.

(** X13.  Where [set_script_env] is defined (a [PATH] is set and the new
    one fits the buffer), the child's environment afterwards has
    [ASH_STANDALONE=1], has the old [PATH] followed by [":"] and
    [MAGISKTMP], has [ZYGISK_ENABLED=1] if zygisk is enabled and the
    inherited [ZYGISK_ENABLED] (set or not) if it is not, and has every
    other variable as inherited. *)
Theorem set_script_env_postconditions w zygisk_enabled env env' :
  set_script_env_effect w zygisk_enabled env = Some env' ->
  getenv env' "ASH_STANDALONE" = Some "1"%string /\
  (exists path,
     getenv env "PATH" = Some path /\
     getenv env' "PATH" = Some (path ++ ":" ++ MAGISKTMP w)%string /\
     (String.length (path ++ ":" ++ MAGISKTMP w)%string < 4096)%nat) /\
  getenv env' "ZYGISK_ENABLED" =
    (if zygisk_enabled then Some "1"%string else getenv env "ZYGISK_ENABLED") /\
  (forall n, n <> "ASH_STANDALONE"%string -> n <> "PATH"%string ->
             n <> "ZYGISK_ENABLED"%string -> getenv env' n = getenv env n).
Proof.
  unfold set_script_env_effect. rewrite getenv_setenv_other by discriminate.
  destruct (getenv env "PATH") as [path|] eqn:Hp; [|discriminate].
  destruct (4096 <=? Z.of_nat (String.length (path ++ ":" ++ MAGISKTMP w)%string)) eqn:Hfit;
    [discriminate|].
  apply Z.leb_gt in Hfit. intros H; inversion H; subst env'; clear H.
  split; [|split; [|split]].
  - destruct zygisk_enabled; reflexivity.
  - exists path. split; [reflexivity|]. split; [|lia].
    destruct zygisk_enabled; reflexivity.
  - destruct zygisk_enabled; reflexivity.
  - intros n H1 H2 H3.
    destruct zygisk_enabled;
      now rewrite ?getenv_setenv_other by assumption.
Qed.

(** X14.  The hook is not idempotent on [PATH]: a process that already
    went through it and goes through it again gets [MAGISKTMP] appended a
    second time, and nothing else changes the second time. *)
Theorem set_script_env_appends_each_time w zygisk_enabled env env1 env2 :
  set_script_env_effect w zygisk_enabled env = Some env1 ->
  set_script_env_effect w zygisk_enabled env1 = Some env2 ->
  exists path,
    getenv env "PATH" = Some path /\
    getenv env2 "PATH" =
      Some ((path ++ ":" ++ MAGISKTMP w) ++ ":" ++ MAGISKTMP w)%string /\
    forall n, n <> "PATH"%string -> getenv env2 n = getenv env1 n.
Proof.
  intros H1 H2.
  assert (P1 : exists path,
             getenv env "PATH" = Some path /\
             getenv env1 "PATH" = Some (path ++ ":" ++ MAGISKTMP w)%string /\
             getenv env1 "ASH_STANDALONE" = Some "1"%string /\
             (zygisk_enabled = true -> getenv env1 "ZYGISK_ENABLED" = Some "1"%string)).
  { revert H1. unfold set_script_env_effect. rewrite getenv_setenv_other by discriminate.
    destruct (getenv env "PATH") as [path|]; [|discriminate].
    destruct (4096 <=? _); [discriminate|].
    intros H; inversion H; subst env1. exists path.
    destruct zygisk_enabled; repeat split; try reflexivity; discriminate. }
  destruct P1 as (path & Hp & Hp1 & Ha1 & Hz1). exists path. split; [exact Hp|].
  revert H2. unfold set_script_env_effect. rewrite getenv_setenv_other by discriminate.
  rewrite Hp1. destruct (4096 <=? _); [discriminate|].
  intros H; inversion H; subst env2. clear H. split.
  - destruct zygisk_enabled; reflexivity.
  - intros n Hn.
    destruct zygisk_enabled.
    + destruct (String.eqb_spec n "ZYGISK_ENABLED") as [->|Hz].
      * rewrite getenv_setenv_same. symmetry. now apply Hz1.
      * rewrite !getenv_setenv_other by assumption.
        destruct (String.eqb_spec n "ASH_STANDALONE") as [->|Hs].
        -- now rewrite getenv_setenv_same.
        -- now rewrite getenv_setenv_other.
    + rewrite getenv_setenv_other by assumption.
      destruct (String.eqb_spec n "ASH_STANDALONE") as [->|Hs].
      * now rewrite getenv_setenv_same.
      * now rewrite getenv_setenv_other.
Qed.

(** ** The cache of [bbpath()] *)

Lemma bbpath_not_empty cfg w : String.eqb (bbpath cfg w) "" = false.
Proof.
  apply String.eqb_neq. intros H. apply (f_equal String.length) in H.
  unfold bbpath in H. rewrite !string_length_append in H. cbn in H. lia.
Qed.

Lemma bbpath_calls_cached cfg ws path :
  String.eqb path "" = false ->
  bbpath_calls cfg ws path = repeat path (List.length ws).
Proof.
  intros Hp. induction ws as [|w ws IH]; [reflexivity|].
  cbn [bbpath_calls List.length repeat]. unfold bbpath_static. rewrite Hp. now rewrite IH.
Qed.

(** X15.  [bbpath()] is computed once: starting with the static empty,
    every call returns the path built from the [MAGISKTMP] of the first
    call, whatever [MAGISKTMP] is later; in a world that does not change
    it is the pure [bbpath] used for the launches. *)
Theorem bbpath_computed_once cfg w0 ws :
  bbpath_calls cfg (w0 :: ws) "" = repeat (bbpath cfg w0) (S (List.length ws)).
Proof.
  cbn [bbpath_calls]. unfold bbpath_static. cbn [String.eqb].
  rewrite bbpath_calls_cached by apply bbpath_not_empty. reflexivity.
Qed.

(** ** The install flows *)

Lemma install_script_parts : install_script = (install_script_head ++ "%s" ++ install_script_tail)%string.
Proof. reflexivity. Qed.

Lemma install_command apk :
  format_s install_script [apk] = (install_script_head ++ apk ++ install_script_tail)%string.
Proof. reflexivity. Qed.

(** X16.  [install_apk] is defined exactly for paths of at most 4098
    bytes (the formatted command then fits [cmds]); it then labels the
    file and hands the system shell, through [fork_no_orphan] and without
    a pre-exec hook, the template with the path put in once, verbatim and
    unquoted, right after [APK=]. *)
Theorem install_apk_command sepol_file_type apk :
  install_apk sepol_file_type apk =
  if (String.length apk <=? 4098)%nat then
    Some [Setfilecon apk ("u:object_r:" ++ sepol_file_type ++ ":s0")%string;
          Exec_command_sync (mk_exec None fork_no_orphan)
            ["/system/bin/sh"; "-c";
             install_script_head ++ apk ++ install_script_tail]%string]
  else None.
Proof.
  unfold install_apk. rewrite install_command.
  rewrite !string_length_append.
  replace (String.length install_script) with 109%nat by reflexivity.
  replace (String.length install_script_head) with 5%nat by reflexivity.
  replace (String.length install_script_tail) with 102%nat by reflexivity.
  destruct (Nat.leb_spec (String.length apk) 4098) as [H|H].
  - replace (Z.of_nat 109 + 1 + 4096 <=? Z.of_nat (5 + (String.length apk + 102)))
      with false by (symmetry; apply Z.leb_gt; lia).
    reflexivity.
  - replace (Z.of_nat 109 + 1 + 4096 <=? Z.of_nat (5 + (String.length apk + 102)))
      with true by (symmetry; apply Z.leb_le; lia).
    reflexivity.
Qed.

Lemma install_module_checks databin h env file :
  let installed :=
    accessible h databin F_OK && accessible h (databin ++ "/busybox")%string X_OK &&
    accessible h (databin ++ "/util_functions.sh")%string F_OK in
  install_module databin h env file =
  if negb (getuid h =? 0) then Some (abort stderr "Run this command with root" [])
  else if negb installed then Some (abort stderr "Incomplete Magisk install" [])
  else if negb (accessible h file F_OK) then Some (abort stderr "'%s' does not exist" [file])
  else
    match realpath h file with
    | None => None
    | Some zip =>
        Some ([Setenv "OUTFD" "1"; Setenv "ZIPFILE" zip; Setenv "ASH_STANDALONE" "1";
               Xopen "/dev/null" (devnull_fd h); Xdup2 (devnull_fd h) STDERR_FILENO;
               Close (devnull_fd h);
               Execve "/system/bin/sh" ["/system/bin/sh"; "-c"; install_module_script]
                 (setenv (setenv (setenv env "OUTFD" "1") "ZIPFILE" zip)
                    "ASH_STANDALONE" "1")] ++
              (if execve_fails h then abort stdout "Failed to execute BusyBox shell" []
               else []))
    end.
Proof.
  intros installed. subst installed. unfold install_module, access_at.
  destruct (getuid h =? 0); [|reflexivity]. cbn [negb].
  destruct (accessible h databin F_OK), (accessible h (databin ++ "/busybox")%string X_OK),
    (accessible h (databin ++ "/util_functions.sh")%string F_OK); try reflexivity.
  cbn. destruct (accessible h file F_OK); reflexivity.
Qed.

(** X17.  [install_module] gets as far as [execve] of the system shell
    exactly when the caller is root, [DATABIN] exists, its [busybox] is
    executable, its [util_functions.sh] exists, the file exists and
    [realpath] resolves it. *)
Theorem install_module_reaches_shell_iff databin h env file :
  (exists steps path argv e,
     install_module databin h env file = Some steps /\ In (Execve path argv e) steps) <->
  (getuid h = 0 /\
   accessible h databin F_OK = true /\
   accessible h (databin ++ "/busybox")%string X_OK = true /\
   accessible h (databin ++ "/util_functions.sh")%string F_OK = true /\
   accessible h file F_OK = true /\
   realpath h file <> None).
Proof.
  rewrite install_module_checks. cbv zeta.
  destruct (Z.eqb_spec (getuid h) 0) as [Hu|Hu]; cbn [negb].
  2:{ split.
      - intros (steps & path & argv & e & H & Hin). inversion H; subst steps.
        cbn in Hin. repeat (destruct Hin as [Hin|Hin]; [discriminate Hin|]). destruct Hin.
      - intros (H & _). contradiction. }
  destruct (accessible h databin F_OK) eqn:H1;
    destruct (accessible h (databin ++ "/busybox")%string X_OK) eqn:H2;
    destruct (accessible h (databin ++ "/util_functions.sh")%string F_OK) eqn:H3;
    cbn [andb negb];
    try (split;
         [ intros (steps & path & argv & e & H & Hin); inversion H; subst steps;
           cbn in Hin; repeat (destruct Hin as [Hin|Hin]; [discriminate Hin|]); destruct Hin
         | intros (_ & Ha & Hb & Hc & _); discriminate ]).
  destruct (accessible h file F_OK) eqn:H4; cbn [negb].
  2:{ split.
      - intros (steps & path & argv & e & H & Hin). inversion H; subst steps.
        cbn in Hin. repeat (destruct Hin as [Hin|Hin]; [discriminate Hin|]). destruct Hin.
      - intros (_ & _ & _ & _ & H & _). discriminate. }
  destruct (realpath h file) as [zip|] eqn:H5.
  - split; [intros _; repeat split; auto; discriminate|].
    intros _. eexists _, _, _, _. split; [reflexivity|]. cbn. do 6 right. now left.
  - split.
    + intros (steps & path & argv & e & H & _). discriminate.
    + intros (_ & _ & _ & _ & _ & H). now contradict H.
Qed.

(** X18.  A refused [install_module]: if the caller is not root, or the
    installation is incomplete, or the file is missing, all the function
    does is print one diagnostic and an empty line to [stderr] and exit
    with status 1; the environment and the descriptors are not touched.
    The root check comes first, then the installation, then the file. *)
Theorem install_module_refusal databin h env file :
  let installed :=
    accessible h databin F_OK && accessible h (databin ++ "/busybox")%string X_OK &&
    accessible h (databin ++ "/util_functions.sh")%string F_OK in
  ~ (getuid h = 0 /\ installed = true /\ accessible h file F_OK = true) ->
  install_module databin h env file =
  Some [Fprintf stderr
          (if negb (getuid h =? 0)%Z then "Run this command with root"
           else if negb installed then "Incomplete Magisk install"
           else "'" ++ file ++ "' does not exist")%string;
        Fprintf stderr (nl ++ nl)%string;
        Exit_status 1].
Proof.
  intros installed Hno. rewrite install_module_checks. cbv zeta. fold installed.
  destruct (Z.eqb_spec (getuid h) 0) as [Hu|Hu]; cbn [negb]; [|reflexivity].
  destruct installed eqn:Hi; cbn [negb]; [|reflexivity].
  destruct (accessible h file F_OK) eqn:Hf; cbn [negb]; [|reflexivity].
  exfalso. apply Hno. auto.
Qed.

(** X19.  An [install_module] that reaches [execve]: the shell is
    [/system/bin/sh -c <install_module_script>], its environment has
    [OUTFD=1], [ZIPFILE] set to the resolved path of the file and
    [ASH_STANDALONE=1], every other variable as on entry; and the only
    diagnostic such a run can still print, once it has tried to point
    [stderr] at [/dev/null], goes to [stdout], when [execve] fails,
    followed by [exit(1)]. *)
Theorem install_module_shell_environment databin h env file steps path argv e :
  install_module databin h env file = Some steps ->
  In (Execve path argv e) steps ->
  path = "/system/bin/sh"%string /\
  argv = ["/system/bin/sh"; "-c"; install_module_script]%string /\
  getenv e "OUTFD" = Some "1"%string /\
  getenv e "ZIPFILE" = realpath h file /\
  getenv e "ASH_STANDALONE" = Some "1"%string /\
  (forall n, n <> "OUTFD"%string -> n <> "ZIPFILE"%string -> n <> "ASH_STANDALONE"%string ->
             getenv e n = getenv env n) /\
  (forall fp text, In (Fprintf fp text) steps -> fp = stdout /\ execve_fails h = true) /\
  (forall status, In (Exit_status status) steps -> status = 1 /\ execve_fails h = true).
Proof.
  rewrite install_module_checks. cbv zeta.
  destruct (negb (getuid h =? 0)).
  { intros H Hin. inversion H; subst steps. cbn in Hin.
    repeat (destruct Hin as [Hin|Hin]; [discriminate Hin|]). destruct Hin. }
  destruct (negb _).
  { intros H Hin. inversion H; subst steps. cbn in Hin.
    repeat (destruct Hin as [Hin|Hin]; [discriminate Hin|]). destruct Hin. }
  destruct (negb _).
  { intros H Hin. inversion H; subst steps. cbn in Hin.
    repeat (destruct Hin as [Hin|Hin]; [discriminate Hin|]). destruct Hin. }
  destruct (realpath h file) as [zip|]; [|discriminate].
  intros H Hin. inversion H; subst steps. clear H.
  assert (He : Execve path argv e =
               Execve "/system/bin/sh" ["/system/bin/sh"; "-c"; install_module_script]%string
                 (setenv (setenv (setenv env "OUTFD" "1") "ZIPFILE" zip) "ASH_STANDALONE" "1")).
  { cbn in Hin. repeat (destruct Hin as [Hin|Hin]; [discriminate Hin|]).
    destruct Hin as [Hin|Hin]; [now symmetry|].
    destruct (execve_fails h); cbn in Hin;
      repeat (destruct Hin as [Hin|Hin]; [discriminate Hin|]); destruct Hin. }
  inversion He; subst path argv e. clear He Hin.
  repeat split; try reflexivity.
  - intros n H1 H2 H3. now rewrite !getenv_setenv_other by assumption.
  - cbn in H. repeat (destruct H as [H|H]; [discriminate H|]).
    destruct (execve_fails h); cbn in H; [|destruct H].
    repeat (destruct H as [H|H]; [inversion H; reflexivity|]).
    destruct H.
  - cbn in H. repeat (destruct H as [H|H]; [discriminate H|]).
    now destruct (execve_fails h).
  - cbn in H. repeat (destruct H as [H|H]; [discriminate H|]).
    destruct (execve_fails h); cbn in H; [|destruct H].
    repeat (destruct H as [H|H]; [discriminate H|]).
    destruct H as [H|H]; [now inversion H|destruct H].
  - cbn in H. repeat (destruct H as [H|H]; [discriminate H|]).
    now destruct (execve_fails h).
Qed.

(** ** The further properties on the sample worlds *)

Lemma untimed_stage_is_transparent_witness :
  is_pfs "service" = false /\
  exists tr,
    call (run_phase example_cfg service_world "service" Directory_phase) proc_start =
      (Returned, proc_start, tr) /\
    fork_calls tr = [] /\ clock_calls tr = [] /\ wait_any_calls tr = [] /\
    kill_calls tr = [] /\
    launches tr =
      map (script_launch example_cfg service_world fork_dont_care)
        ["/data/adb/service.d/10-fast"; "/data/adb/service.d/20-slow";
         "/data/adb/service.d/30-late"]%string.
Proof.
  split; [reflexivity|].
  apply (untimed_stage_is_transparent example_cfg service_world "service" Directory_phase
           proc_start).
  reflexivity.
Defined.

Lemma directory_phase_sets_deadline_witness :
  is_pfs "post-fs-data" = true /\
  dir_entries caller_world (stage_dir example_cfg "post-fs-data") = Some stage_listing /\
  pfs_timeout (snd (fst (exec_common_scripts example_cfg caller_world "post-fs-data" proc_start)))
    = mk_timespec 47 500.
Proof.
  split; [reflexivity|]. split; [reflexivity|].
  exact (proj1 (directory_phase_sets_deadline example_cfg caller_world "post-fs-data"
                  proc_start stage_listing eq_refl eq_refl)).
Defined.

Lemma caller_waits_for_subtree_only_witness :
  supervised example_cfg caller_world "post-fs-data" Directory_phase proc_start = true /\
  0 < xfork_ret caller_world 0 /\
  exists line s',
    run_phase example_cfg caller_world "post-fs-data" Directory_phase proc_start =
    (Return_, s',
     [Log_info line; Clock_gettime (mk_timespec 12 500); Xfork 4242; Waitpid 4242]).
Proof.
  split; [reflexivity|]. split; [reflexivity|].
  apply (caller_waits_for_subtree_only example_cfg caller_world "post-fs-data"
           Directory_phase proc_start); reflexivity.
Defined.

Lemma kill_only_unreaped_timer_witness :
  In (Kill 77 9)
    (snd (run_phase example_cfg calm_world "post-fs-data" Directory_phase proc_start)) /\
  9 = SIGKILL /\ 77 = xfork_ret calm_world 1 /\ 0 < 77 /\
  ~ In (Waitpid_any 77)
      (snd (run_phase example_cfg calm_world "post-fs-data" Directory_phase proc_start)) /\
  kill_calls (snd (run_phase example_cfg calm_world "post-fs-data" Directory_phase proc_start))
    = [Kill 77 9] /\
  exists pre,
    snd (run_phase example_cfg calm_world "post-fs-data" Directory_phase proc_start) =
    pre ++ [Kill 77 9].
Proof.
  assert (I : In (Kill 77 9)
                (snd (run_phase example_cfg calm_world "post-fs-data" Directory_phase
                        proc_start))).
  { vm_compute. repeat (first [left; reflexivity | right]). }
  split; [exact I|].
  exact (kill_only_unreaped_timer example_cfg calm_world "post-fs-data" Directory_phase
           proc_start 77 9 I).
Defined.

Lemma timeout_warning_once_witness :
  In (Waitpid_any 77)
    (snd (run_phase example_cfg subtree_world "post-fs-data" Directory_phase proc_start)) /\
  warn_calls (snd (run_phase example_cfg subtree_world "post-fs-data" Directory_phase proc_start))
    = [timeout_warning] /\
  warn_calls (snd (run_phase example_cfg calm_world "post-fs-data" Directory_phase proc_start))
    = [].
Proof.
  assert (I : In (Waitpid_any 77)
                (snd (run_phase example_cfg subtree_world "post-fs-data" Directory_phase
                        proc_start))).
  { vm_compute. repeat (first [left; reflexivity | right]). }
  assert (N : ~ In (Waitpid_any 77)
                (snd (run_phase example_cfg calm_world "post-fs-data" Directory_phase
                        proc_start))).
  { vm_compute. intros H.
    repeat (destruct H as [H|H]; [discriminate H|]). exact H. }
  split; [exact I|]. split.
  - exact (proj1 (timeout_warning_once example_cfg subtree_world "post-fs-data"
                    Directory_phase proc_start) I).
  - exact (proj2 (timeout_warning_once example_cfg calm_world "post-fs-data"
                    Directory_phase proc_start) N).
Defined.

Lemma waits_bounded_by_launches_witness :
  List.length
    (wait_any_calls
       (snd (run_phase example_cfg calm_world "post-fs-data" Directory_phase proc_start))) =
  3%nat.
Proof.
  assert (N : ~ In (Waitpid_any 77)
                (snd (run_phase example_cfg calm_world "post-fs-data" Directory_phase
                        proc_start))).
  { vm_compute. intros H.
    repeat (destruct H as [H|H]; [discriminate H|]). exact H. }
  exact (proj2 (waits_bounded_by_launches example_cfg calm_world "post-fs-data"
                  Directory_phase proc_start) eq_refl eq_refl eq_refl N).
Defined.

Lemma timer_sleeps_until_phase_deadline_witness :
  supervised example_cfg timer_world "post-fs-data" (Module_phase ["alpha"; "beta"]%string)
    (mk_proc (mk_timespec 47 500) 0 0 0) = true /\
  exists line s',
    run_phase example_cfg timer_world "post-fs-data" (Module_phase ["alpha"; "beta"]%string)
      (mk_proc (mk_timespec 47 500) 0 0 0) =
    (Exit 0, s',
     [Log_info line; Clock_gettime (mk_timespec 12 500); Xfork 0; Xfork 0;
      Clock_nanosleep (mk_timespec 47 500)]).
Proof.
  split; [reflexivity|].
  apply (timer_sleeps_until_phase_deadline example_cfg timer_world "post-fs-data"
           (Module_phase ["alpha"; "beta"]%string) (mk_proc (mk_timespec 47 500) 0 0 0));
    reflexivity.
Defined.

Lemma module_phase_inherits_budget_witness :
  exists s1 tr1,
    call (exec_common_scripts example_cfg caller_world "post-fs-data") proc_start =
      (Returned, s1, tr1) /\
    fork_calls
      (snd (exec_module_scripts example_cfg caller_world "post-fs-data"
              ["alpha"; "beta"]%string s1)) <> [].
Proof.
  destruct (module_phase_inherits_budget example_cfg caller_world ["alpha"; "beta"]%string
              proc_start stage_listing eq_refl)
    as (s1 & tr1 & Hc & Hiff).
  - discriminate.
  - cbn. lia.
  - cbn. lia.
  - unfold time_t_min, time_t_max. cbn. lia.
  - exists s1, tr1. split; [exact Hc|]. apply Hiff. split; [discriminate|]. cbn. lia.
Defined.

Lemma set_script_env_postconditions_witness :
  exists env',
    set_script_env_effect subtree_world true shell_env = Some env' /\
    getenv env' "ASH_STANDALONE" = Some "1"%string /\
    getenv env' "PATH" = Some "/system/bin:/sbin"%string /\
    getenv env' "ZYGISK_ENABLED" = Some "1"%string /\
    getenv env' "HOME" = None.
Proof.
  eexists. split; [reflexivity|].
  match goal with |- context [getenv ?e "ASH_STANDALONE"] =>
    destruct (set_script_env_postconditions subtree_world true shell_env e eq_refl)
      as (Ha & (path & Hp & Hp' & _) & Hz & Ho)
  end.
  split; [exact Ha|]. split; [reflexivity|]. split; [exact Hz|].
  rewrite Ho by discriminate. reflexivity.
Defined.

Lemma set_script_env_appends_each_time_witness :
  exists env1 env2,
    set_script_env_effect subtree_world false shell_env = Some env1 /\
    set_script_env_effect subtree_world false env1 = Some env2 /\
    getenv env2 "PATH" = Some "/system/bin:/sbin:/sbin"%string.
Proof.
  eexists _, _. split; [reflexivity|]. split; [reflexivity|].
  match goal with |- getenv ?e2 _ = _ =>
    destruct (set_script_env_appends_each_time subtree_world false shell_env _ e2
                eq_refl eq_refl) as (path & Hp & Hp2 & _)
  end.
  reflexivity.
Defined.

Lemma install_module_refusal_witness :
  install_module "/data/adb/magisk" guest_host shell_env "m.zip" =
  Some [Fprintf stderr "Run this command with root"; Fprintf stderr (nl ++ nl)%string;
        Exit_status 1].
Proof.
  apply (install_module_refusal "/data/adb/magisk" guest_host shell_env "m.zip").
  cbn. intros (H & _). discriminate H.
Defined.

Lemma install_module_shell_environment_witness :
  exists steps e,
    install_module "/data/adb/magisk" ready_host shell_env "m.zip" = Some steps /\
    In (Execve "/system/bin/sh" ["/system/bin/sh"; "-c"; install_module_script]%string e) steps /\
    getenv e "ZIPFILE" = Some "/sdcard/m.zip"%string /\
    getenv e "PATH" = Some "/system/bin"%string.
Proof.
  eexists _, _. split; [reflexivity|].
  match goal with |- In ?x ?l /\ _ =>
    assert (I : In x l) by (cbn; do 6 right; now left)
  end.
  split; [exact I|].
  destruct (install_module_shell_environment "/data/adb/magisk" ready_host shell_env "m.zip"
              _ _ _ _ eq_refl I) as (_ & _ & _ & Hz & _ & Ho & _).
  split; [exact Hz|]. rewrite Ho by discriminate. reflexivity.
Defined.
